(** * The code-execution tool of the chat application

    A shallow embedding of [analyzeTool.execute] (src/lib/tools/analyze.ts):
    the function takes a Python source string and a timeout in seconds, runs
    [python3 -c code] through Node's [spawnSync], and turns every way the run
    can end into one returned object.

    JavaScript values are modelled as the code uses them:
    - a string is its sequence of UTF-16 code units;
    - a number that holds an integer is a [Z];
    - a property that may be [null] or [undefined] is an [option];
    - an object literal is a record whose optional properties are [option]s
      ([None]: the property is not in the object);
    - the body runs in a state-and-exception monad over the host, which owns
      the clock ([Date.now]) and the process supervisor ([spawnSync]).

    The second tool, [weatherTool.execute], is embedded the same way in
    [Module Weather], over a host that owns [fetch]. *)

From Stdlib Require Import List ZArith NArith Bool Ascii String.
From Stdlib Require Import DecimalString DecimalPos DecimalZ Lia.
Import ListNotations.

Local Open Scope Z_scope.

(** ** Strings *)

Module JsString.

Definition jsstring : Type := list N.

(** A literal of the source text, as code units. *)
Definition js (s : string) : jsstring :=
  map N_of_ascii (list_ascii_of_string s).

Definition eqb (a b : jsstring) : bool :=
  if list_eq_dec N.eq_dec a b then true else false.

(** ToBoolean on a string: only the empty string is falsy. *)
Definition truthy (s : jsstring) : bool :=
  match s with
  | [] => false
  | _ :: _ => true
  end.

(** ECMAScript WhiteSpace: TAB, VT, FF, ZWNBSP and the Unicode
    space separators (category Zs). *)
Definition isWhiteSpace (c : N) : bool :=
  ((c =? 0x0009) || (c =? 0x000B) || (c =? 0x000C) || (c =? 0xFEFF)
   || (c =? 0x0020) || (c =? 0x00A0) || (c =? 0x1680)
   || ((0x2000 <=? c) && (c <=? 0x200A))
   || (c =? 0x202F) || (c =? 0x205F) || (c =? 0x3000))%N.

(** ECMAScript LineTerminator: LF, CR, LS, PS. *)
Definition isLineTerminator (c : N) : bool :=
  ((c =? 0x000A) || (c =? 0x000D) || (c =? 0x2028) || (c =? 0x2029))%N.

(** What [trim], [trimStart] and [trimEnd] strip. *)
Definition isStripped (c : N) : bool :=
  isWhiteSpace c || isLineTerminator c.

Fixpoint dropWhile (p : N -> bool) (s : jsstring) : jsstring :=
  match s with
  | [] => []
  | c :: r => if p c then dropWhile p r else s
  end.

(** [String.prototype.trimStart] *)
Definition trimStart (s : jsstring) : jsstring := dropWhile isStripped s.

(** [String.prototype.trimEnd] *)
Definition trimEnd (s : jsstring) : jsstring :=
  rev (dropWhile isStripped (rev s)).

(** [String.prototype.trim] *)
Definition trim (s : jsstring) : jsstring := trimEnd (trimStart s).

(** [Number::toString] on an integer whose magnitude is below 10^21:
    the decimal digits, with a leading minus sign when negative. *)
Definition Number_toString (n : Z) : jsstring :=
  js (NilZero.string_of_int (Z.to_int n)).

(** [a ?? b] *)
Definition nullish {A : Type} (a : option A) (b : A) : A :=
  match a with
  | Some v => v
  | None => b
  end.

End JsString.
Import JsString.

Infix "??" := nullish (at level 45, right associativity).

(** ** What [spawnSync] is given and what it gives back *)

(** The options object of the call. *)
Record SpawnSyncOptions : Type := {
  input : jsstring;
  timeout : Z;
  encoding : jsstring;
  maxBuffer : Z
}.

(** One call of [spawnSync(command, args, options)]. *)
Record SpawnCall : Type := {
  command : jsstring;
  args : list jsstring;
  options : SpawnSyncOptions
}.

(** [result.error], an [Error] object read as [any]: its [code] and
    [message] properties and what [String(err)] yields. *)
Record SpawnError : Type := {
  err_code : option jsstring;
  err_message : option jsstring;
  err_String : jsstring
}.

(** [SpawnSyncReturns<string>] *)
Record SpawnSyncReturns : Type := {
  error_of : option SpawnError;
  status : option Z;
  signal : option jsstring;
  stdout_of : option jsstring;
  stderr_of : option jsstring
}.

(** A value that was thrown: an [Error] with its message, or anything
    else with its [String(...)] conversion. *)
Inductive Thrown : Type :=
| ThrownError (message : jsstring)
| ThrownOther (as_string : jsstring).

(** How a computation ends. *)
Inductive completion (A : Type) : Type :=
| Normal (a : A)
| Abrupt (e : Thrown).
Arguments Normal {A} a.
Arguments Abrupt {A} e.

(** ** The host

    [W] is the state of the world outside the function. [host_now] is
    [Date.now()]; [host_spawn] is [spawnSync], which either returns its
    result object or throws (it throws on arguments it refuses, such as a
    string holding a NUL code unit). *)
Class Host (W : Type) : Type := {
  host_now : W -> Z * W;
  host_spawn : SpawnCall -> W -> completion SpawnSyncReturns * W
}.

(** ** The object [execute] returns *)
Record Outcome : Type := {
  success : bool;
  error : option jsstring;
  details : option jsstring;
  stdout : jsstring;
  stderr : jsstring;
  exit_code : Z;
  execution_time_ms : option Z;
  help : option jsstring
}.

Section Executor.

Context {W : Type} {host : Host W}.

(** The world together with the record of the child processes that
    were created. *)
Record State : Type := {
  world : W;
  spawned : list SpawnCall
}.

Definition Exec (A : Type) : Type := State -> completion A * State.

Definition ret {A : Type} (a : A) : Exec A := fun st => (Normal a, st).

Definition bind {A B : Type} (m : Exec A) (k : A -> Exec B) : Exec B :=
  fun st =>
    match m st with
    | (Normal a, st') => k a st'
    | (Abrupt e, st') => (Abrupt e, st')
    end.

(** [try { body } catch (e) { handler }]: what the body did to the
    world before it threw stays done. *)
Definition try_catch {A : Type} (body : Exec A) (handler : Thrown -> Exec A)
  : Exec A :=
  fun st =>
    match body st with
    | (Normal a, st') => (Normal a, st')
    | (Abrupt e, st') => handler e st'
    end.

Definition Date_now : Exec Z :=
  fun st =>
    let (t, w) := host_now (world st) in
    (Normal t, {| world := w; spawned := spawned st |}).

Definition spawnSync (cmd : jsstring) (argv : list jsstring)
           (opts : SpawnSyncOptions) : Exec SpawnSyncReturns :=
  fun st =>
    let call := {| command := cmd; args := argv; options := opts |} in
    let (r, w) := host_spawn call (world st) in
    (r, {| world := w; spawned := spawned st ++ [call] |}).

Notation "x <- m ;; k" := (bind m (fun x => k))
  (at level 61, m at next level, right associativity).

(** [err.code === c] *)
Definition code_is (err : SpawnError) (c : jsstring) : bool :=
  match err_code err with
  | Some s => JsString.eqb s c
  | None => false
  end.

(** [error instanceof Error ? error.message : String(error)] *)
Definition thrown_details (e : Thrown) : jsstring :=
  match e with
  | ThrownError message => message
  | ThrownOther as_string => as_string
  end.

(** [analyzeTool.execute] *)
Definition execute (code : jsstring) (timeout_seconds : Z) : Exec Outcome :=
  if negb (truthy code) || (List.length (trim code) =? 0)%nat then
    ret {| success := false;
           error := Some (js "No code provided");
           details := None;
           stdout := js "";
           stderr := js "";
           exit_code := -1;
           execution_time_ms := None;
           help := None |}
  else
    startTime <- Date_now ;;
    try_catch
      (result <- spawnSync (js "python3") [js "-c"; code]
                   {| input := code;
                      timeout := timeout_seconds * 1000;
                      encoding := js "utf-8";
                      maxBuffer := 1024 * 1024 |} ;;
       now <- Date_now ;;
       let executionTime := now - startTime in
       match error_of result with
       | Some err =>
           if code_is err (js "ENOENT") then
             ret {| success := false;
                    error := Some (js "Python 3 is not installed or not found in PATH");
                    details := None;
                    stdout := stdout_of result ?? js "";
                    stderr := stderr_of result ?? js "python3 not found";
                    exit_code := -1;
                    execution_time_ms := Some executionTime;
                    help := Some (js "Install Python from https://www.python.org/downloads/") |}
           else if code_is err (js "ETIMEDOUT") then
             ret {| success := false;
                    error := Some (js "Execution timed out after "
                                     ++ Number_toString timeout_seconds
                                     ++ js " seconds");
                    details := None;
                    stdout := stdout_of result ?? js "";
                    stderr := stderr_of result ?? js "";
                    exit_code := -1;
                    execution_time_ms := Some executionTime;
                    help := None |}
           else
             ret {| success := false;
                    error := Some (js "Failed to start or run Python process");
                    details := None;
                    stdout := stdout_of result ?? js "";
                    stderr := stderr_of result ?? (err_message err ?? err_String err);
                    exit_code := -1;
                    execution_time_ms := Some executionTime;
                    help := None |}
       | None =>
           let exitCode :=
             match status result with
             | Some n => n
             | None =>
                 match signal result with
                 | Some sig => if truthy sig then -1 else 0
                 | None => 0
                 end
             end in
           let stdout := stdout_of result ?? js "" in
           let stderr := stderr_of result ?? js "" in
           if exitCode =? 0 then
             ret {| success := true;
                    error := None;
                    details := None;
                    stdout := trimEnd stdout;
                    stderr := trimEnd stderr;
                    exit_code := 0;
                    execution_time_ms := Some executionTime;
                    help := None |}
           else
             ret {| success := false;
                    error := Some (js "Python execution failed");
                    details := None;
                    stdout := trimEnd stdout;
                    stderr := trimEnd stderr;
                    exit_code := exitCode;
                    execution_time_ms := Some executionTime;
                    help := None |}
       end)
      (fun error =>
         now <- Date_now ;;
         let executionTime := now - startTime in
         ret {| success := false;
                error := Some (js "Unexpected error during code execution");
                details := Some (thrown_details error);
                stdout := js "";
                stderr := js "";
                exit_code := -1;
                execution_time_ms := Some executionTime;
                help := None |}).

(** The one call of [spawnSync] in the body of [execute]. *)
Definition python_call (code : jsstring) (timeout_seconds : Z) : SpawnCall :=
  {| command := js "python3";
     args := [js "-c"; code];
     options := {| input := code;
                   timeout := timeout_seconds * 1000;
                   encoding := js "utf-8";
                   maxBuffer := 1024 * 1024 |} |}.

(** What the host answers along the path of [execute] that creates the
    child: the clock reading taken as [startTime], how [spawnSync] ends,
    the clock reading taken next (after the call on the normal path, in
    the [catch] block when it threw), and the state left behind. *)
Definition host_run (code : jsstring) (timeout_seconds : Z) (st : State)
  : Z * completion SpawnSyncReturns * Z * State :=
  let (t0, w1) := host_now (world st) in
  let (r, w2) := host_spawn (python_call code timeout_seconds) w1 in
  let (t1, w3) := host_now w2 in
  (t0, r, t1,
   {| world := w3;
      spawned := spawned st ++ [python_call code timeout_seconds] |}).

End Executor.

Arguments State W : clear implicits.

(** ** The words of the specification *)

(** A code string that is empty or holds nothing but white space. *)
Definition blank (code : jsstring) : bool := forallb isStripped code.

(** The last code unit of [s] is white space. *)
Definition ends_stripped (s : jsstring) : bool :=
  match rev s with
  | [] => false
  | c :: _ => isStripped c
  end.

(** [out] is [captured] without its trailing white space. *)
Definition trailing_trimmed (captured out : jsstring) : Prop :=
  exists tail,
    captured = out ++ tail
    /\ forallb isStripped tail = true
    /\ ends_stripped out = false.

(** The integer that a string of decimal digits, with or without a
    minus sign, stands for. *)
Definition decimal_value (s : jsstring) : option Z :=
  option_map Z.of_int
             (NilZero.int_of_string (string_of_list_ascii (map ascii_of_N s))).

(** What the parameter schema lets through as [timeout_seconds]:
    [z.number().int().min(1).max(30)]. *)
Definition timeout_in_schema (timeout_seconds : Z) : Prop :=
  1 <= timeout_seconds <= 30.

(** [analyzeTool.parameters], applied to the arguments of a tool call
    before [execute] sees them: [code] is a string of at least one code
    unit, [timeout_seconds] an integer from 1 to 30, 10 when left out. *)
Definition parameters (code : jsstring) (timeout_seconds : option Z)
  : option (jsstring * Z) :=
  if (1 <=? List.length code)%nat then
    let t := timeout_seconds ?? 10 in
    if (1 <=? t) && (t <=? 30) then Some (code, t) else None
  else None.

(** The error code with which [spawnSync] reports that the interpreter
    command was not found. *)
Definition ENOENT : jsstring := js "ENOENT".

(** The error code with which [spawnSync] reports that the timeout ran
    out before the child was done. *)
Definition ETIMEDOUT : jsstring := js "ETIMEDOUT".

(** The error code with which [spawnSync] reports that a captured
    stream outgrew [maxBuffer]. *)
Definition ENOBUFS : jsstring := js "ENOBUFS".

(** The output cap of the specification: 1 MiB. *)
Definition output_cap : Z := 1048576.

(** ** A scripted host

    A host whose clock and whose answer to [spawnSync] are fixed in
    advance: the clock shows [clock] until the supervisor is called, which
    takes [elapse] milliseconds and ends as [reply] says. *)
Record Scripted : Type := {
  clock : Z;
  elapse : Z;
  reply : completion SpawnSyncReturns
}.

#[export] Instance scripted_host : Host Scripted := {|
  host_now s := (clock s, s);
  host_spawn _ s :=
    (reply s,
     {| clock := clock s + elapse s; elapse := elapse s; reply := reply s |})
|}.

(** A state in which no child has been created yet. *)
Definition fresh (s : Scripted) : State Scripted :=
  {| world := s; spawned := [] |}.

(** The child printed [out] and [err] and exited with [code]. *)
Definition exited (code : Z) (out err : jsstring) : completion SpawnSyncReturns :=
  Normal {| error_of := None;
            status := Some code;
            signal := None;
            stdout_of := Some out;
            stderr_of := Some err |}.

(** The child was killed by the signal [sig]. *)
Definition killed (sig out err : jsstring) : completion SpawnSyncReturns :=
  Normal {| error_of := None;
            status := None;
            signal := Some sig;
            stdout_of := Some out;
            stderr_of := Some err |}.

(** The supervisor reports the error [c] and hands over what it
    captured, if anything. *)
Definition failed (c : jsstring) (message : jsstring)
           (out err : option jsstring) : completion SpawnSyncReturns :=
  Normal {| error_of := Some {| err_code := Some c;
                                err_message := Some message;
                                err_String := js "Error: " ++ message |};
            status := None;
            signal := None;
            stdout_of := out;
            stderr_of := err |}.

(** The error code, if any, with which the creation or the supervision
    of the child failed during the call: none when the code is blank (no
    child is asked for), when [spawnSync] throws, or when it reports no
    error. *)
Definition spawn_error_code {W : Type} {host : Host W}
           (code : jsstring) (timeout_seconds : Z) (st : State W)
  : option jsstring :=
  if blank code then None
  else
    match host_run code timeout_seconds st with
    | (_, Normal result, _, _) =>
        match error_of result with
        | Some err => err_code err
        | None => None
        end
    | (_, Abrupt _, _, _) => None
    end.

(** ** Some runs *)

Definition LF : N := 0x000A%N.
Definition NUL : N := 0%N.

(** Three spaces: a code string that the schema lets through and
    that the guard of [execute] turns away. *)
Definition three_spaces : jsstring := js "   ".

(** [print('hello')] prints its line and exits with 0 after 42 ms. *)
Definition hello_world : Scripted :=
  {| clock := 1000; elapse := 42;
     reply := exited 0 (js "hello" ++ [LF]) [] |}.

(** [raise SystemExit(3)] after a message on stderr. *)
Definition exits_with_3 : Scripted :=
  {| clock := 1000; elapse := 40;
     reply := exited 3 [] (js "boom" ++ [LF]) |}.

(** The child is killed from outside while it runs. *)
Definition killed_by_signal : Scripted :=
  {| clock := 1000; elapse := 500;
     reply := killed (js "SIGKILL") (js "partial") [] |}.

(** No [python3] on the PATH. *)
Definition no_python : Scripted :=
  {| clock := 1000; elapse := 3;
     reply := failed ENOENT (js "spawnSync python3 ENOENT") None None |}.

(** The child is still running when the 10 seconds are over. *)
Definition too_slow : Scripted :=
  {| clock := 1000; elapse := 10004;
     reply := failed ETIMEDOUT (js "spawnSync python3 ETIMEDOUT")
                     (Some (js "tick")) (Some []) |}.

(** What the supervisor hands over when a child outgrows the cap: the
    ENOBUFS error, no status, the signal with which it ended the child,
    and the part of stdout that it had read by then. *)
Definition overflow_report (capture : jsstring) : SpawnSyncReturns :=
  {| error_of := Some {| err_code := Some ENOBUFS;
                         err_message := Some (js "spawnSync python3 ENOBUFS");
                         err_String := js "Error: spawnSync python3 ENOBUFS" |};
     status := None;
     signal := Some (js "SIGTERM");
     stdout_of := Some capture;
     stderr_of := Some [] |}.

Definition loud_run (capture : jsstring) : Scripted :=
  {| clock := 1000; elapse := 120;
     reply := Normal (overflow_report capture) |}.

(** The 1114112 code units that the supervisor hands over for
    [print('a' * 2000000)]: more than the 1048576 it was asked to
    keep. *)
Definition too_loud_capture : jsstring := repeat 0x61%N (N.to_nat 1114112).

Definition too_loud_result : SpawnSyncReturns :=
  overflow_report too_loud_capture.

(** The child writes more than the supervisor is allowed to keep. *)
Definition too_loud : Scripted := loud_run too_loud_capture.

(** The child is done with status 0, and the supervisor reports that
    the time ran out all the same. *)
Definition done_at_the_deadline : Scripted :=
  {| clock := 1000; elapse := 10001;
     reply := Normal {| error_of := Some {| err_code := Some ETIMEDOUT;
                                            err_message :=
                                              Some (js "spawnSync python3 ETIMEDOUT");
                                            err_String :=
                                              js "Error: spawnSync python3 ETIMEDOUT" |};
                        status := Some 0;
                        signal := None;
                        stdout_of := Some (js "done" ++ [LF]);
                        stderr_of := Some [] |} |}.

(** The supervisor ends the child with SIGTERM when the time has run
    out. *)
Definition killed_at_the_deadline : Scripted :=
  {| clock := 1000; elapse := 10004;
     reply := Normal {| error_of := Some {| err_code := Some ETIMEDOUT;
                                            err_message :=
                                              Some (js "spawnSync python3 ETIMEDOUT");
                                            err_String :=
                                              js "Error: spawnSync python3 ETIMEDOUT" |};
                        status := None;
                        signal := Some (js "SIGTERM");
                        stdout_of := Some (js "tick" ++ [LF]);
                        stderr_of := Some [] |} |}.

(** [spawnSync] refuses its arguments and throws. *)
Definition refuses : Scripted :=
  {| clock := 1000; elapse := 1;
     reply := Abrupt (ThrownError
                        (js "The argument 'args[1]' must be a string without null bytes")) |}.

(** The interpreter is there but may not be run. *)
Definition not_permitted : Scripted :=
  {| clock := 1000; elapse := 2;
     reply := failed (js "EACCES") (js "spawnSync python3 EACCES") None None |}.

(** The supervisor reports neither an error, nor a status, nor a
    signal. *)
Definition no_status : Scripted :=
  {| clock := 1000; elapse := 7;
     reply := Normal {| error_of := None;
                        status := None;
                        signal := None;
                        stdout_of := Some (js "out" ++ [LF]);
                        stderr_of := None |} |}.

(** A supervisor whose answer depends on the call alone, not on the
    state of the world in which it is asked. *)
Definition answers_alike {W : Type} {host : Host W} : Prop :=
  forall (c : SpawnCall) (w w' : W),
    fst (host_spawn c w) = fst (host_spawn c w').

(** A host that is a clock and nothing else: every child prints the
    code it was given, exits with 0 and takes five milliseconds. *)
Definition echo_host : Host Z := {|
  host_now t := (t, t);
  host_spawn call t := (exited 0 (input (options call)) [], t + 5)
|}.

(** ** The weather tool

    [weatherTool] (the second tool of the application): it asks the
    Open-Meteo service for a forecast over HTTP and hands back either the
    forecast or a failure object. *)

Module Weather.

(** [Array.prototype.join] on an array of strings. *)
Fixpoint join (sep : jsstring) (l : list jsstring) : jsstring :=
  match l with
  | [] => []
  | [s] => s
  | s :: r => s ++ sep ++ join sep r
  end.

Fixpoint startsWith (s prefix : jsstring) : bool :=
  match prefix, s with
  | [], _ => true
  | _ :: _, [] => false
  | p :: prefix', c :: s' => (c =? p)%N && startsWith s' prefix'
  end.

(** [String.prototype.includes] *)
Fixpoint includes (s sub : jsstring) : bool :=
  startsWith s sub
  || match s with
     | [] => false
     | _ :: r => includes r sub
     end.

(** *** [URLSearchParams.prototype.toString]

    The application/x-www-form-urlencoded serializer: each name and each
    value is read as code points (a lone surrogate as U+FFFD), written in
    UTF-8, and every byte other than an ASCII letter, a digit and
    [* - . _] is escaped, the space as [+], the others as [%XX]. *)

Definition is_high_surrogate (c : N) : bool :=
  ((0xD800 <=? c) && (c <=? 0xDBFF))%N.

Definition is_low_surrogate (c : N) : bool :=
  ((0xDC00 <=? c) && (c <=? 0xDFFF))%N.

Fixpoint code_points (s : jsstring) : list N :=
  match s with
  | [] => []
  | c :: r =>
      if is_high_surrogate c then
        match r with
        | d :: r' =>
            if is_low_surrogate d
            then (0x10000 + (c - 0xD800) * 0x400 + (d - 0xDC00))%N
                   :: code_points r'
            else 0xFFFD%N :: code_points r
        | [] => [0xFFFD%N]
        end
      else if is_low_surrogate c then 0xFFFD%N :: code_points r
      else c :: code_points r
  end.

Definition utf8 (cp : N) : list N :=
  (if cp <? 0x80 then [cp]
   else if cp <? 0x800 then [0xC0 + cp / 0x40; 0x80 + cp mod 0x40]
   else if cp <? 0x10000 then
     [0xE0 + cp / 0x1000; 0x80 + (cp / 0x40) mod 0x40; 0x80 + cp mod 0x40]
   else
     [0xF0 + cp / 0x40000; 0x80 + (cp / 0x1000) mod 0x40;
      0x80 + (cp / 0x40) mod 0x40; 0x80 + cp mod 0x40])%N.

(** The bytes that are written as they are. *)
Definition unescaped (b : N) : bool :=
  (((0x30 <=? b) && (b <=? 0x39))
   || ((0x41 <=? b) && (b <=? 0x5A))
   || ((0x61 <=? b) && (b <=? 0x7A))
   || (b =? 0x2A) || (b =? 0x2D) || (b =? 0x2E) || (b =? 0x5F))%N.

Definition hex_digit (n : N) : N :=
  (if n <? 10 then 0x30 + n else 0x37 + n)%N.

Definition encode_byte (b : N) : jsstring :=
  if unescaped b then [b]
  else if (b =? 0x20)%N then [0x2B%N]
  else [0x25%N; hex_digit (b / 16); hex_digit (b mod 16)].

Definition form_encode (s : jsstring) : jsstring :=
  flat_map encode_byte (flat_map utf8 (code_points s)).

Definition AMPERSAND : N := 0x26%N.
Definition EQUALS : N := 0x3D%N.

Definition URLSearchParams_toString (params : list (jsstring * jsstring))
  : jsstring :=
  join [AMPERSAND]
       (map (fun p => form_encode (fst p) ++ [EQUALS] ++ form_encode (snd p))
            params).

(** *** Reading a query back *)

(** The pieces of [s] between the occurrences of [sep]. *)
Fixpoint split_on (sep : N) (s : jsstring) : list jsstring :=
  match s with
  | [] => [[]]
  | c :: r =>
      if (c =? sep)%N then [] :: split_on sep r
      else
        match split_on sep r with
        | piece :: pieces => (c :: piece) :: pieces
        | [] => [[c]]
        end
  end.

(** The names of the parameters of a query string: of each piece
    between two [&], what stands before the first [=]. *)
Definition query_names (query : jsstring) : list jsstring :=
  map (fun piece => hd [] (split_on EQUALS piece))
      (split_on AMPERSAND query).

(** A string without the code unit [sep]. *)
Definition free_of (sep : N) (s : jsstring) : Prop := ~ In sep s.

(** *** Values *)

(** What this code does with a number: write it out ([toString]), test
    it ([ToBoolean]) and have the literal [3]. *)
Class JsNumber (Num : Type) : Type := {
  num_toString : Num -> jsstring;
  num_truthy : Num -> bool;
  num_of_Z : Z -> Num
}.

Section WeatherTool.

Context {Num : Type} {numbers : JsNumber Num}.

(** A value that [JSON.parse] can give. An object holds one entry per
    key. *)
#[warnings="-register-all"]
Inductive Json : Type :=
| JNull
| JBool (b : bool)
| JNumber (n : Num)
| JString (s : jsstring)
| JArray (items : list Json)
| JObject (fields : list (jsstring * Json)).

Fixpoint lookup (key : jsstring) (fields : list (jsstring * Json))
  : option Json :=
  match fields with
  | [] => None
  | (k, v) :: r => if JsString.eqb k key then Some v else lookup key r
  end.

(** ToBoolean; [None] is [undefined]. *)
Definition truthy_value (v : option Json) : bool :=
  match v with
  | None => false
  | Some JNull => false
  | Some (JBool b) => b
  | Some (JNumber n) => num_truthy n
  | Some (JString s) => truthy s
  | Some (JArray _) => true
  | Some (JObject _) => true
  end.

(** What [fetch] resolves to, as far as this code looks at it; [json]
    is how [await response.json()] ends. *)
Record Response : Type := {
  ok : bool;
  statusText : jsstring;
  json : completion Json
}.

(** [fetch(url)] either resolves to a response or rejects. *)
Class Net (W : Type) : Type := {
  net_fetch : jsstring -> W -> completion Response * W
}.

(** The arguments of a call, as the schema types them. *)
Record Params : Type := {
  latitude : Num;
  longitude : Num;
  forecast_days : option Num;
  daily : list jsstring
}.

Record Location : Type := {
  location_latitude : option Json;
  location_longitude : option Json;
  location_timezone : option Json;
  location_elevation : option Json
}.

Record Daily : Type := {
  time : option Json;
  temperature_max : option Json;
  temperature_min : option Json;
  precipitation : option Json;
  windspeed : option Json;
  weathercode : option Json
}.

(** The two shapes of the returned object: [{ success: true, location,
    daily, units }] and [{ success: false, error, details }]. *)
Inductive Result : Type :=
| Forecast (location : Location) (daily : Daily) (units : option Json)
| Failure (error details : jsstring).

Definition success (r : Result) : bool :=
  match r with
  | Forecast _ _ _ => true
  | Failure _ _ => false
  end.

Context {W : Type} {net : Net W}.

(** The world together with the URLs that were requested. *)
Record Session : Type := {
  world : W;
  requested : list jsstring
}.

Definition Task (A : Type) : Type := Session -> completion A * Session.

Definition ret {A : Type} (a : A) : Task A := fun s => (Normal a, s).

Definition throw {A : Type} (e : Thrown) : Task A := fun s => (Abrupt e, s).

Definition bind {A B : Type} (m : Task A) (k : A -> Task B) : Task B :=
  fun s =>
    match m s with
    | (Normal a, s') => k a s'
    | (Abrupt e, s') => (Abrupt e, s')
    end.

Definition try_catch {A : Type} (body : Task A) (handler : Thrown -> Task A)
  : Task A :=
  fun s =>
    match body s with
    | (Normal a, s') => (Normal a, s')
    | (Abrupt e, s') => handler e s'
    end.

Notation "x <- m ;; k" := (bind m (fun x => k))
  (at level 61, m at next level, right associativity).

Definition fetch (url : jsstring) : Task Response :=
  fun s =>
    let (r, w) := net_fetch url (world s) in
    (r, {| world := w; requested := requested s ++ [url] |}).

(** [await response.json()] *)
Definition response_json (response : Response) : Task Json :=
  fun s => (json response, s).

(** [value.key], for the keys this code reads (none of which a string,
    an array, a number or a boolean has): reading from [null] or
    [undefined] throws a [TypeError], with the message that Node gives
    it. *)
Definition get (value : option Json) (key : string) : Task (option Json) :=
  match value with
  | None =>
      throw (ThrownError (js "Cannot read properties of undefined (reading '"
                            ++ js key ++ js "')"))
  | Some JNull =>
      throw (ThrownError (js "Cannot read properties of null (reading '"
                            ++ js key ++ js "')"))
  | Some (JObject fields) => ret (lookup (js key) fields)
  | Some _ => ret None
  end.

(** [weatherTool.execute] *)
Definition execute (params : Params) : Task Result :=
  try_catch
    (let latitude := latitude params in
     let longitude := longitude params in
     let forecast_days := forecast_days params ?? num_of_Z 3 in
     let daily := daily params in
     let baseUrl := js "https://api.open-meteo.com/v1/forecast" in
     let queryParams :=
       [(js "latitude", num_toString latitude);
        (js "longitude", num_toString longitude);
        (js "forecast_days", num_toString forecast_days);
        (js "timezone", js "auto")] in
     let queryParams :=
       if (0 <? List.length daily)%nat
       then queryParams ++ [(js "daily", join (js ",") daily)]
       else queryParams in
     let url := baseUrl ++ js "?" ++ URLSearchParams_toString queryParams in
     response <- fetch url ;;
     if negb (ok response) then
       throw (ThrownError (js "Failed to fetch weather data: "
                             ++ statusText response))
     else
       data <- response_json response ;;
       data_daily <- get (Some data) "daily" ;;
       invalid <- (if negb (truthy_value data_daily) then ret true
                   else (data_daily_time <- get data_daily "time" ;;
                         ret (negb (truthy_value data_daily_time)))) ;;
       if invalid : bool then
         throw (ThrownError (js "Invalid response format from Open-Meteo API"))
       else
         data_latitude <- get (Some data) "latitude" ;;
         data_longitude <- get (Some data) "longitude" ;;
         data_timezone <- get (Some data) "timezone" ;;
         data_elevation <- get (Some data) "elevation" ;;
         daily_time <- get data_daily "time" ;;
         daily_temperature_2m_max <- get data_daily "temperature_2m_max" ;;
         daily_temperature_2m_min <- get data_daily "temperature_2m_min" ;;
         daily_precipitation_sum <- get data_daily "precipitation_sum" ;;
         daily_windspeed_10m_max <- get data_daily "windspeed_10m_max" ;;
         daily_weathercode <- get data_daily "weathercode" ;;
         data_daily_units <- get (Some data) "daily_units" ;;
         ret (Forecast
                {| location_latitude := data_latitude;
                   location_longitude := data_longitude;
                   location_timezone := data_timezone;
                   location_elevation := data_elevation |}
                {| time := daily_time;
                   temperature_max := daily_temperature_2m_max;
                   temperature_min := daily_temperature_2m_min;
                   precipitation := daily_precipitation_sum;
                   windspeed := daily_windspeed_10m_max;
                   weathercode := daily_weathercode |}
                data_daily_units))
    (fun error =>
       match error with
       | ThrownError message =>
           if includes message (js "fetch failed") then
             ret (Failure (js "Network error: Unable to reach Open-Meteo API")
                          message)
           else
             ret (Failure (js "Failed to fetch weather data") message)
       | ThrownOther as_string =>
           ret (Failure (js "Unknown error occurred") as_string)
       end).

(** The URL that [execute] asks for. *)
Definition request_url (params : Params) : jsstring :=
  js "https://api.open-meteo.com/v1/forecast" ++ js "?"
  ++ URLSearchParams_toString
       ([(js "latitude", num_toString (latitude params));
         (js "longitude", num_toString (longitude params));
         (js "forecast_days",
          num_toString (forecast_days params ?? num_of_Z 3));
         (js "timezone", js "auto")]
        ++ (if (0 <? List.length (daily params))%nat
            then [(js "daily", join (js ",") (daily params))]
            else [])).

(** How [fetch] ends for the call, and the session it leaves. *)
Definition answer (params : Params) (s : Session)
  : completion Response * Session :=
  fetch (request_url params) s.

(** [value.key] for a value that is not [null]. *)
Definition field (value : Json) (key : string) : option Json :=
  match value with
  | JObject fields => lookup (js key) fields
  | _ => None
  end.

(** A body that [execute] takes for a forecast: an object whose
    [daily] is an object with a truthy [time]. *)
Definition valid_body (data : Json) : bool :=
  match field data "daily" with
  | Some (JObject daily_fields) =>
      truthy_value (lookup (js "time") daily_fields)
  | _ => false
  end.

(** The text with which a failure to reach the service is reported. *)
Definition NETWORK_ERROR : jsstring :=
  js "Network error: Unable to reach Open-Meteo API".

(** The text with which every other failure of an [Error] kind is
    reported. *)
Definition API_ERROR : jsstring := js "Failed to fetch weather data".

End WeatherTool.

Arguments Json Num : clear implicits.
Arguments Response Num : clear implicits.
Arguments Params Num : clear implicits.
Arguments Result Num : clear implicits.
Arguments Net Num W : clear implicits.
Arguments Session W : clear implicits.

(** *** Some calls *)

(** Numbers that are integers. *)
Definition integers : JsNumber Z := {|
  num_toString := Number_toString;
  num_truthy n := negb (n =? 0);
  num_of_Z n := n
|}.

(** A network whose answer is fixed in advance. *)
Definition canned : Net Z (completion (Response Z)) := {|
  net_fetch _ reply := (reply, reply)
|}.

Definition first_call (reply : completion (Response Z))
  : Session (completion (Response Z)) :=
  {| world := reply; requested := [] |}.

(** Tokyo, three days by default, two variables; the second name
    tries to add a parameter of its own. *)
Definition tokyo : Params Z :=
  {| latitude := 36; longitude := 140; forecast_days := None;
     daily := [js "temperature_2m_max"; js "rain&latitude=0"] |}.

Definition forecast_body : Json Z :=
  JObject [(js "latitude", JNumber 36);
           (js "timezone", JString (js "Asia/Tokyo"));
           (js "daily",
            JObject [(js "time", JArray [JString (js "2024-01-01")]);
                     (js "temperature_2m_max", JArray [JNumber 9])])].

Definition good_reply : completion (Response Z) :=
  Normal {| ok := true; statusText := js "OK"; json := Normal forecast_body |}.

Definition bad_request : completion (Response Z) :=
  Normal {| ok := false; statusText := js "Bad Request";
            json := Normal JNull |}.

(** An answer of the wrong shape: no [daily]. *)
Definition odd_reply : completion (Response Z) :=
  Normal {| ok := true; statusText := js "OK";
            json := Normal (JObject [(js "error", JBool true)]) |}.

Definition unreachable : completion (Response Z) :=
  Abrupt (ThrownError (js "fetch failed")).

End Weather.

(** ** Facts about strings *)

Section StringFacts.

Lemma eqb_eq (a b : jsstring) : JsString.eqb a b = true <-> a = b.
Proof.
  unfold JsString.eqb.
  destruct (list_eq_dec N.eq_dec a b); split; congruence.
Qed.

Lemma eqb_neq (a b : jsstring) : JsString.eqb a b = false <-> a <> b.
Proof.
  unfold JsString.eqb.
  destruct (list_eq_dec N.eq_dec a b); split; congruence.
Qed.

Variable p : N -> bool.

Lemma dropWhile_nil_iff (s : jsstring) :
  dropWhile p s = [] <-> forallb p s = true.
Proof.
  induction s as [|c r IH]; simpl.
  - tauto.
  - destruct (p c); simpl; [exact IH | split; discriminate].
Qed.

Lemma dropWhile_head (s r : jsstring) (c : N) :
  dropWhile p s = c :: r -> p c = false.
Proof.
  induction s as [|d s' IH]; simpl; [discriminate|].
  destruct (p d) eqn:E; [exact IH|].
  intros H. injection H as -> _. exact E.
Qed.

(** What [dropWhile] removes is a prefix that satisfies [p]. *)
Lemma dropWhile_split (s : jsstring) :
  exists pre, s = pre ++ dropWhile p s /\ forallb p pre = true.
Proof.
  induction s as [|c r [pre [E F]]]; simpl.
  - exists []. split; reflexivity.
  - destruct (p c) eqn:Ec.
    + exists (c :: pre). simpl. rewrite Ec, F. split; [f_equal; exact E | reflexivity].
    + exists []. split; reflexivity.
Qed.

Lemma forallb_dropWhile (s : jsstring) :
  forallb p (dropWhile p s) = forallb p s.
Proof.
  induction s as [|c r IH]; simpl; [reflexivity|].
  destruct (p c) eqn:E; simpl; [exact IH | now rewrite E].
Qed.

Lemma forallb_rev (s : jsstring) : forallb p (rev s) = forallb p s.
Proof.
  induction s as [|c r IH]; simpl; [reflexivity|].
  rewrite forallb_app, IH. simpl. rewrite andb_true_r. apply andb_comm.
Qed.

End StringFacts.

Lemma Normal_injective {A : Type} (a b : A) : Normal a = Normal b -> a = b.
Proof. intros H. now injection H. Qed.

Lemma rev_nil_iff (s : jsstring) : rev s = [] <-> s = [].
Proof.
  split; intros H.
  - rewrite <- (rev_involutive s), H. reflexivity.
  - subst. reflexivity.
Qed.

Lemma js_read_back (s : string) :
  string_of_list_ascii (map ascii_of_N (js s)) = s.
Proof.
  unfold js. rewrite map_map.
  rewrite (map_ext _ (fun a => a) ascii_N_embedding), map_id.
  apply string_of_list_ascii_of_string.
Qed.

(** The digits that [Number_toString] writes read back as the number. *)
Lemma Number_toString_value (n : Z) :
  decimal_value (Number_toString n) = Some n.
Proof.
  unfold decimal_value, Number_toString. rewrite js_read_back.
  rewrite NilZero.isi.
  - simpl. f_equal. apply DecimalZ.of_to.
  - destruct n as [|q|q]; simpl; try discriminate.
    intros H. injection H as H. revert H. apply Unsigned.to_uint_nonnil.
  - destruct n as [|q|q]; simpl; try discriminate.
    intros H. injection H as H. revert H. apply Unsigned.to_uint_nonnil.
Qed.

(** [trim] leaves nothing exactly when the string is blank. *)
Lemma trim_nil_iff (s : jsstring) : trim s = [] <-> blank s = true.
Proof.
  unfold trim, trimEnd, trimStart, blank.
  rewrite rev_nil_iff, dropWhile_nil_iff, forallb_rev, forallb_dropWhile.
  reflexivity.
Qed.

(** The test that guards [execute] is the test for a blank string. *)
Lemma guard_is_blank (code : jsstring) :
  negb (truthy code) || (List.length (trim code) =? 0)%nat = blank code.
Proof.
  destruct (blank code) eqn:B.
  - apply trim_nil_iff in B. rewrite B. simpl. apply orb_true_r.
  - destruct code as [|c r]; [discriminate|]. simpl negb. simpl orb.
    destruct (trim (c :: r)) eqn:T; [|reflexivity].
    apply trim_nil_iff in T. congruence.
Qed.

(** [trimEnd] removes the trailing white space and nothing else. *)
Lemma trimEnd_trailing_trimmed (s : jsstring) : trailing_trimmed s (trimEnd s).
Proof.
  unfold trailing_trimmed, trimEnd, ends_stripped.
  destruct (dropWhile_split isStripped (rev s)) as [pre [E F]].
  exists (rev pre). repeat split.
  - rewrite <- rev_app_distr, <- E. symmetry. apply rev_involutive.
  - rewrite forallb_rev. exact F.
  - rewrite rev_involutive.
    destruct (dropWhile isStripped (rev s)) as [|c r] eqn:D; [reflexivity|].
    exact (dropWhile_head _ _ _ _ D).
Qed.

Lemma trimEnd_length (s : jsstring) :
  (List.length (trimEnd s) <= List.length s)%nat.
Proof.
  destruct (trimEnd_trailing_trimmed s) as [tail [E _]].
  rewrite E at 2. rewrite length_app. lia.
Qed.

(** What passes the schema has a timeout in its range. *)
Lemma parameters_timeout code given code' timeout_seconds :
  parameters code given = Some (code', timeout_seconds) ->
  code' = code /\ code <> [] /\ timeout_in_schema timeout_seconds.
Proof.
  unfold parameters, timeout_in_schema.
  destruct code as [|c r]; [discriminate|]. simpl Nat.leb. cbv iota.
  destruct ((1 <=? given ?? 10) && (given ?? 10 <=? 30)) eqn:T; [|discriminate].
  intros H. injection H as <- <-.
  apply andb_true_iff in T as [T1 T2].
  apply Z.leb_le in T1. apply Z.leb_le in T2.
  repeat split; [discriminate | assumption | assumption].
Qed.

(** A string that does not end in white space is left as it is. *)
Lemma trimEnd_fixed (s : jsstring) : ends_stripped s = false -> trimEnd s = s.
Proof.
  unfold ends_stripped, trimEnd. intros H.
  destruct (rev s) as [|c r] eqn:E.
  - apply (proj1 (rev_nil_iff s)) in E. subst. reflexivity.
  - simpl. rewrite H. rewrite <- E. apply rev_involutive.
Qed.

(** [trailing_trimmed] determines its result: it is [trimEnd]. *)
Lemma trailing_trimmed_unique (captured out : jsstring) :
  trailing_trimmed captured out -> out = trimEnd captured.
Proof.
  intros [tail [E [F L]]]. subst captured.
  unfold trimEnd. rewrite rev_app_distr.
  assert (D : forall a b, forallb isStripped a = true ->
                          dropWhile isStripped (a ++ b) = dropWhile isStripped b).
  { induction a as [|c a IH]; simpl; intros b Hb; [reflexivity|].
    apply andb_true_iff in Hb as [Hc Ha]. rewrite Hc. now apply IH. }
  rewrite D by (now rewrite forallb_rev).
  symmetry. apply (trimEnd_fixed out L).
Qed.

(** ** Facts about [execute] *)

(** Runs [execute] on a code string known not to be blank, along the
    answers of the host recorded by a hypothesis on [host_run]. *)
Ltac run_execute B R :=
  unfold execute; rewrite guard_is_blank, B;
  unfold host_run, python_call in R;
  unfold try_catch, bind, Date_now, spawnSync, ret;
  repeat (cbv beta iota zeta in R; cbn [world spawned] in R;
          match type of R with
          | context [host_now ?w] =>
              let E := fresh "E" in destruct (host_now w) eqn:E
          | context [host_spawn ?c ?w] =>
              let E := fresh "E" in destruct (host_spawn c w) eqn:E
          end);
  cbv beta iota zeta in R; cbn [world spawned] in R;
  injection R as -> -> -> <-;
  repeat (cbv beta iota zeta; cbn [world spawned];
          match goal with
          | E : host_now ?w = _ |- context [host_now ?w] => rewrite E
          | E : host_spawn ?c ?w = _ |- context [host_spawn ?c ?w] => rewrite E
          end);
  cbv beta iota zeta; cbn [world spawned].

Section ExecutorFacts.

Context {W : Type} {host : Host W}.

Implicit Types (code : jsstring) (timeout_seconds : Z) (st : State W).

(** A blank code string is turned away before anything is asked of
    the host. *)
Lemma execute_blank code timeout_seconds st :
  blank code = true ->
  execute code timeout_seconds st =
    (Normal {| success := false;
               error := Some (js "No code provided");
               details := None;
               stdout := [];
               stderr := [];
               exit_code := -1;
               execution_time_ms := None;
               help := None |}, st).
Proof.
  intros B. unfold execute. rewrite guard_is_blank, B. reflexivity.
Qed.

(** When [spawnSync] throws, the [catch] block answers. *)
Lemma execute_thrown code timeout_seconds st t0 e t1 st' :
  blank code = false ->
  host_run code timeout_seconds st = (t0, Abrupt e, t1, st') ->
  execute code timeout_seconds st =
    (Normal {| success := false;
               error := Some (js "Unexpected error during code execution");
               details := Some (thrown_details e);
               stdout := [];
               stderr := [];
               exit_code := -1;
               execution_time_ms := Some (t1 - t0);
               help := None |}, st').
Proof.
  intros B R. run_execute B R. reflexivity.
Qed.

End ExecutorFacts.

(** ** The branches of [execute], one lemma each *)

Section Branches.

Context {W : Type} {host : Host W}.

Implicit Types (code : jsstring) (timeout_seconds : Z) (st : State W).

(** The call leaves exactly one more entry in the record of created
    children. *)
Lemma host_run_spawned code timeout_seconds st t0 r t1 st' :
  host_run code timeout_seconds st = (t0, r, t1, st') ->
  spawned st' = spawned st ++ [python_call code timeout_seconds].
Proof.
  unfold host_run. intros R.
  destruct (host_now (world st)) as [a w1].
  destruct (host_spawn (python_call code timeout_seconds) w1) as [x w2].
  destruct (host_now w2) as [b w3].
  injection R as _ _ _ <-. reflexivity.
Qed.

Lemma code_is_eq (err : SpawnError) (c : jsstring) :
  code_is err c = true <-> err_code err = Some c.
Proof.
  unfold code_is. destruct (err_code err) as [s|].
  - rewrite eqb_eq. split; congruence.
  - split; discriminate.
Qed.

Lemma code_is_neq (err : SpawnError) (c : jsstring) :
  code_is err c = false <-> err_code err <> Some c.
Proof.
  rewrite <- code_is_eq. destruct (code_is err c); split; congruence.
Qed.

Lemma execute_enoent code timeout_seconds st t0 result err t1 st' :
  blank code = false ->
  host_run code timeout_seconds st = (t0, Normal result, t1, st') ->
  error_of result = Some err ->
  err_code err = Some ENOENT ->
  execute code timeout_seconds st =
    (Normal {| success := false;
               error := Some (js "Python 3 is not installed or not found in PATH");
               details := None;
               stdout := stdout_of result ?? [];
               stderr := stderr_of result ?? js "python3 not found";
               exit_code := -1;
               execution_time_ms := Some (t1 - t0);
               help := Some (js "Install Python from https://www.python.org/downloads/") |},
     st').
Proof.
  intros B R E C. run_execute B R. rewrite E.
  rewrite (proj2 (code_is_eq err (js "ENOENT")) C). reflexivity.
Qed.

Lemma execute_etimedout code timeout_seconds st t0 result err t1 st' :
  blank code = false ->
  host_run code timeout_seconds st = (t0, Normal result, t1, st') ->
  error_of result = Some err ->
  err_code err = Some ETIMEDOUT ->
  execute code timeout_seconds st =
    (Normal {| success := false;
               error := Some (js "Execution timed out after "
                                ++ Number_toString timeout_seconds
                                ++ js " seconds");
               details := None;
               stdout := stdout_of result ?? [];
               stderr := stderr_of result ?? [];
               exit_code := -1;
               execution_time_ms := Some (t1 - t0);
               help := None |},
     st').
Proof.
  intros B R E C. run_execute B R. rewrite E.
  assert (N1 : code_is err (js "ENOENT") = false).
  { apply code_is_neq. rewrite C. discriminate. }
  rewrite N1, (proj2 (code_is_eq err (js "ETIMEDOUT")) C). reflexivity.
Qed.

Lemma execute_other_error code timeout_seconds st t0 result err t1 st' :
  blank code = false ->
  host_run code timeout_seconds st = (t0, Normal result, t1, st') ->
  error_of result = Some err ->
  err_code err <> Some ENOENT ->
  err_code err <> Some ETIMEDOUT ->
  execute code timeout_seconds st =
    (Normal {| success := false;
               error := Some (js "Failed to start or run Python process");
               details := None;
               stdout := stdout_of result ?? [];
               stderr := stderr_of result ?? (err_message err ?? err_String err);
               exit_code := -1;
               execution_time_ms := Some (t1 - t0);
               help := None |},
     st').
Proof.
  intros B R E C1 C2. run_execute B R. rewrite E.
  rewrite (proj2 (code_is_neq err (js "ENOENT")) C1).
  rewrite (proj2 (code_is_neq err (js "ETIMEDOUT")) C2). reflexivity.
Qed.

(** Without an error, the outcome follows the exit code that the body
    computes from [status] and [signal]. *)
Lemma execute_exited code timeout_seconds st t0 result t1 st' :
  blank code = false ->
  host_run code timeout_seconds st = (t0, Normal result, t1, st') ->
  error_of result = None ->
  exists exitCode,
    exitCode = match status result with
               | Some n => n
               | None =>
                   match signal result with
                   | Some sig => if truthy sig then -1 else 0
                   | None => 0
                   end
               end
    /\ execute code timeout_seconds st =
         (Normal {| success := (exitCode =? 0);
                    error := if exitCode =? 0 then None
                             else Some (js "Python execution failed");
                    details := None;
                    stdout := trimEnd (stdout_of result ?? []);
                    stderr := trimEnd (stderr_of result ?? []);
                    exit_code := exitCode;
                    execution_time_ms := Some (t1 - t0);
                    help := None |},
          st').
Proof.
  intros B R E. eexists. split; [reflexivity|].
  run_execute B R. rewrite E.
  match goal with |- context [Z.eqb ?x 0] => destruct (Z.eqb_spec x 0) as [Z0|Z0] end.
  - rewrite Z0. reflexivity.
  - reflexivity.
Qed.

(** A call whose code is not blank asks the supervisor for exactly one
    child, with the timeout in milliseconds and the 1 MiB cap. *)
Lemma execute_spawns_once code timeout_seconds st :
  blank code = false ->
  spawned (snd (execute code timeout_seconds st))
  = spawned st ++ [python_call code timeout_seconds]
  /\ timeout (options (python_call code timeout_seconds))
     = timeout_seconds * 1000
  /\ maxBuffer (options (python_call code timeout_seconds)) = output_cap.
Proof.
  intros B. split; [|split; reflexivity].
  destruct (host_run code timeout_seconds st) as [[[t0 r] t1] st'] eqn:R.
  rewrite <- (host_run_spawned _ _ _ _ _ _ _ R).
  destruct r as [result|e].
  - destruct (error_of result) as [err|] eqn:E.
    + destruct (code_is err ENOENT) eqn:C1.
      { apply code_is_eq in C1.
        now rewrite (execute_enoent _ _ _ _ _ _ _ _ B R E C1). }
      destruct (code_is err ETIMEDOUT) eqn:C2.
      { apply code_is_eq in C2.
        now rewrite (execute_etimedout _ _ _ _ _ _ _ _ B R E C2). }
      apply code_is_neq in C1. apply code_is_neq in C2.
      now rewrite (execute_other_error _ _ _ _ _ _ _ _ B R E C1 C2).
    + destruct (execute_exited _ _ _ _ _ _ _ B R E) as [x [_ X]].
      now rewrite X.
  - now rewrite (execute_thrown _ _ _ _ _ _ _ B R).
Qed.

End Branches.

(** ** The claims of the specification *)

Section Claims.

Context {W : Type} {host : Host W}.

Implicit Types (code : jsstring) (timeout_seconds : Z) (st : State W).

(** C1. For every code string, every timeout and every host, [execute]
    ends normally with an outcome object; it never ends by throwing.
    An exception thrown by [spawnSync] inside the body is caught and
    becomes an outcome like every other failure. *)
Theorem execute_never_throws code timeout_seconds st :
  exists (o : Outcome) (st' : State W),
    execute code timeout_seconds st = (Normal o, st').
Proof.
  destruct (blank code) eqn:B.
  - eexists; eexists. now apply execute_blank.
  - destruct (host_run code timeout_seconds st) as [[[t0 r] t1] st'] eqn:R.
    destruct r as [result|e].
    + destruct (error_of result) as [err|] eqn:E.
      * destruct (code_is err ENOENT) eqn:C1.
        { apply code_is_eq in C1. eexists; eexists.
          exact (execute_enoent _ _ _ _ _ _ _ _ B R E C1). }
        destruct (code_is err ETIMEDOUT) eqn:C2.
        { apply code_is_eq in C2. eexists; eexists.
          exact (execute_etimedout _ _ _ _ _ _ _ _ B R E C2). }
        apply code_is_neq in C1. apply code_is_neq in C2.
        eexists; eexists.
        exact (execute_other_error _ _ _ _ _ _ _ _ B R E C1 C2).
      * destruct (execute_exited _ _ _ _ _ _ _ B R E) as [x [_ X]].
        eexists; eexists. exact X.
    + eexists; eexists. exact (execute_thrown _ _ _ _ _ _ _ B R).
Qed.

(** C2. A code string that is empty or made of white space only is
    answered at once with the "No code provided" failure
    ([success = false]), and the state is left as it was: the record of
    created child processes does not grow and the host is not called. *)
Theorem blank_code_is_rejected_without_spawning code timeout_seconds st :
  blank code = true ->
  execute code timeout_seconds st =
    (Normal {| success := false;
               error := Some (js "No code provided");
               details := None;
               stdout := [];
               stderr := [];
               exit_code := -1;
               execution_time_ms := None;
               help := None |}, st)
  /\ spawned (snd (execute code timeout_seconds st)) = spawned st.
Proof.
  intros B. rewrite (execute_blank code timeout_seconds st B).
  split; reflexivity.
Qed.

(** C3, as amended. The outcome carries [execution_time_ms] exactly
    when the code string is not blank: every outcome of a call that
    reaches the supervisor has it, on success and on each kind of
    failure, and the rejection of a blank code string does not. *)
Theorem execution_time_present_unless_blank code timeout_seconds st :
  exists (o : Outcome) (st' : State W),
    execute code timeout_seconds st = (Normal o, st')
    /\ if blank code
       then execution_time_ms o = None
       else execution_time_ms o
            = Some (let '(t0, _, t1, _) := host_run code timeout_seconds st
                    in t1 - t0).
Proof.
  destruct (blank code) eqn:B.
  - eexists; eexists. split; [now apply execute_blank | reflexivity].
  - destruct (host_run code timeout_seconds st) as [[[t0 r] t1] st'] eqn:R.
    destruct r as [result|e].
    + destruct (error_of result) as [err|] eqn:E.
      * destruct (code_is err ENOENT) eqn:C1.
        { apply code_is_eq in C1. eexists; eexists. split;
            [exact (execute_enoent _ _ _ _ _ _ _ _ B R E C1) | reflexivity]. }
        destruct (code_is err ETIMEDOUT) eqn:C2.
        { apply code_is_eq in C2. eexists; eexists. split;
            [exact (execute_etimedout _ _ _ _ _ _ _ _ B R E C2) | reflexivity]. }
        apply code_is_neq in C1. apply code_is_neq in C2.
        eexists; eexists. split;
          [exact (execute_other_error _ _ _ _ _ _ _ _ B R E C1 C2) | reflexivity].
      * destruct (execute_exited _ _ _ _ _ _ _ B R E) as [x [_ X]].
        eexists; eexists. split; [exact X | reflexivity].
    + eexists; eexists. split;
        [exact (execute_thrown _ _ _ _ _ _ _ B R) | reflexivity].
Qed.

(** C4, as amended. When the supervisor reports no error and the child has exited
    with status 0, the outcome is the success: [success = true],
    [exit_code = 0], and [stdout] and [stderr] are the captured streams
    without their trailing white space. *)
Theorem exit_status_zero_is_success
        code timeout_seconds st t0 result t1 st' :
  blank code = false ->
  host_run code timeout_seconds st = (t0, Normal result, t1, st') ->
  error_of result = None ->
  status result = Some 0 ->
  exists o : Outcome,
    execute code timeout_seconds st = (Normal o, st')
    /\ o = {| success := true;
              error := None;
              details := None;
              stdout := trimEnd (stdout_of result ?? []);
              stderr := trimEnd (stderr_of result ?? []);
              exit_code := 0;
              execution_time_ms := Some (t1 - t0);
              help := None |}
    /\ trailing_trimmed (stdout_of result ?? []) (stdout o)
    /\ trailing_trimmed (stderr_of result ?? []) (stderr o).
Proof.
  intros B R E S.
  destruct (execute_exited _ _ _ _ _ _ _ B R E) as [x [X1 X2]].
  rewrite S in X1. subst x. eexists. split; [exact X2|].
  split; [reflexivity|]. split; apply trimEnd_trailing_trimmed.
Qed.

(** C5, as amended. When the supervisor reports no error and the child has exited
    with a status other than 0, or has been ended by a signal, the
    outcome is the "Python execution failed" failure: [success = false],
    [exit_code] is the status, or -1 after a signal, and [stdout] and
    [stderr] are the captured streams without their trailing white
    space. *)
Theorem nonzero_exit_or_signal_is_failure
        code timeout_seconds st t0 result t1 st' (n : Z) :
  blank code = false ->
  host_run code timeout_seconds st = (t0, Normal result, t1, st') ->
  error_of result = None ->
  (status result = Some n /\ n <> 0)
  \/ (status result = None
      /\ (exists sig, signal result = Some sig /\ sig <> [])
      /\ n = -1) ->
  exists o : Outcome,
    execute code timeout_seconds st = (Normal o, st')
    /\ o = {| success := false;
              error := Some (js "Python execution failed");
              details := None;
              stdout := trimEnd (stdout_of result ?? []);
              stderr := trimEnd (stderr_of result ?? []);
              exit_code := n;
              execution_time_ms := Some (t1 - t0);
              help := None |}
    /\ trailing_trimmed (stdout_of result ?? []) (stdout o)
    /\ trailing_trimmed (stderr_of result ?? []) (stderr o).
Proof.
  intros B R E H.
  destruct (execute_exited _ _ _ _ _ _ _ B R E) as [x [X1 X2]].
  assert (Hx : x = n /\ n <> 0).
  { destruct H as [[S N0] | [S [[sig [G T]] N1]]]; rewrite S in X1.
    - subst x. split; [reflexivity | exact N0].
    - rewrite G in X1. destruct sig; [congruence|].
      simpl in X1. subst. split; [reflexivity | discriminate]. }
  destruct Hx as [-> N0].
  apply Z.eqb_neq in N0. rewrite N0 in X2.
  eexists. split; [exact X2|].
  split; [reflexivity|]. split; apply trimEnd_trailing_trimmed.
Qed.

(** C6. When the creation of the child fails with ENOENT (the
    interpreter command is not found), whatever the non-blank code
    string, the outcome is the "Python 3 is not installed or not found
    in PATH" failure and carries the install hint in [help]; in every
    other case the outcome has no [help]. *)
Theorem interpreter_not_found_carries_help code timeout_seconds st :
  exists (o : Outcome) (st' : State W),
    execute code timeout_seconds st = (Normal o, st')
    /\ (spawn_error_code code timeout_seconds st = Some ENOENT ->
        success o = false
        /\ error o = Some (js "Python 3 is not installed or not found in PATH")
        /\ exit_code o = -1
        /\ help o = Some (js "Install Python from https://www.python.org/downloads/"))
    /\ (spawn_error_code code timeout_seconds st <> Some ENOENT ->
        help o = None).
Proof.
  unfold spawn_error_code.
  destruct (blank code) eqn:B.
  - eexists; eexists. split; [now apply execute_blank|].
    split; [discriminate | reflexivity].
  - destruct (host_run code timeout_seconds st) as [[[t0 r] t1] st'] eqn:R.
    destruct r as [result|e].
    + destruct (error_of result) as [err|] eqn:E.
      * destruct (code_is err ENOENT) eqn:C1.
        { apply code_is_eq in C1. eexists; eexists. split;
            [exact (execute_enoent _ _ _ _ _ _ _ _ B R E C1)|].
          split; [intros _; repeat split | congruence]. }
        destruct (code_is err ETIMEDOUT) eqn:C2.
        { apply code_is_neq in C1. apply code_is_eq in C2.
          eexists; eexists. split;
            [exact (execute_etimedout _ _ _ _ _ _ _ _ B R E C2)|].
          split; [congruence | reflexivity]. }
        apply code_is_neq in C1. apply code_is_neq in C2.
        eexists; eexists. split;
          [exact (execute_other_error _ _ _ _ _ _ _ _ B R E C1 C2)|].
        split; [congruence | reflexivity].
      * destruct (execute_exited _ _ _ _ _ _ _ B R E) as [x [_ X]].
        eexists; eexists. split; [exact X|].
        split; [discriminate | reflexivity].
    + eexists; eexists. split; [exact (execute_thrown _ _ _ _ _ _ _ B R)|].
      split; [discriminate | reflexivity].
Qed.

(** C7. When the supervisor reports ETIMEDOUT (the timeout ran out
    before the child was done), the outcome is a failure whose message
    is "Execution timed out after N seconds", where N is the
    [timeout_seconds] of the call written in decimal digits; the
    supervisor had been given that same bound, in milliseconds. *)
Theorem timeout_reports_configured_bound
        code timeout_seconds st t0 result err t1 st' :
  timeout_in_schema timeout_seconds ->
  blank code = false ->
  host_run code timeout_seconds st = (t0, Normal result, t1, st') ->
  error_of result = Some err ->
  err_code err = Some ETIMEDOUT ->
  exists o : Outcome,
    execute code timeout_seconds st = (Normal o, st')
    /\ success o = false
    /\ error o = Some (js "Execution timed out after "
                         ++ Number_toString timeout_seconds
                         ++ js " seconds")
    /\ decimal_value (Number_toString timeout_seconds) = Some timeout_seconds
    /\ exit_code o = -1
    /\ help o = None
    /\ last (spawned st') (python_call code 0)
       = python_call code timeout_seconds
    /\ timeout (options (python_call code timeout_seconds))
       = timeout_seconds * 1000.
Proof.
  intros _ B R E C. eexists.
  split; [exact (execute_etimedout _ _ _ _ _ _ _ _ B R E C)|].
  repeat split.
  - apply Number_toString_value.
  - rewrite (host_run_spawned _ _ _ _ _ _ _ R). apply last_last.
Qed.

(** C8, as amended. [execute] asks the supervisor to keep at most
    1 MiB of a stream and cuts nothing itself. When the supervisor
    reports that the cap was outgrown (ENOBUFS), a result is still
    returned: the "Failed to start or run Python process" failure with
    [exit_code] -1, whose [stdout] and [stderr] are what the supervisor
    hands over, as it is and as long as it is ([stderr] being the message
    of the error when none was captured). *)
Theorem overflow_report_returns_the_capture
        code timeout_seconds st t0 result err t1 st' :
  blank code = false ->
  host_run code timeout_seconds st = (t0, Normal result, t1, st') ->
  error_of result = Some err ->
  err_code err = Some ENOBUFS ->
  exists o : Outcome,
    execute code timeout_seconds st = (Normal o, st')
    /\ success o = false
    /\ error o = Some (js "Failed to start or run Python process")
    /\ exit_code o = -1
    /\ stdout o = stdout_of result ?? []
    /\ stderr o = stderr_of result ?? (err_message err ?? err_String err)
    /\ List.length (stdout o) = List.length (stdout_of result ?? [])
    /\ maxBuffer (options (last (spawned st') (python_call code 0)))
       = output_cap.
Proof.
  intros B R E C.
  assert (C1 : err_code err <> Some ENOENT) by (rewrite C; discriminate).
  assert (C2 : err_code err <> Some ETIMEDOUT) by (rewrite C; discriminate).
  eexists. split; [exact (execute_other_error _ _ _ _ _ _ _ _ B R E C1 C2)|].
  cbn [success error exit_code stdout stderr].
  repeat split.
  rewrite (host_run_spawned _ _ _ _ _ _ _ R), last_last. reflexivity.
Qed.

(** C10. When [spawnSync] throws inside the body, the [catch] block
    answers with the "Unexpected error during code execution" failure,
    whose [stdout] and [stderr] are empty strings and whose [exit_code]
    is -1, with the message of what was thrown in [details]. *)
Theorem thrown_error_yields_default_outcome
        code timeout_seconds st t0 e t1 st' :
  blank code = false ->
  host_run code timeout_seconds st = (t0, Abrupt e, t1, st') ->
  exists o : Outcome,
    execute code timeout_seconds st = (Normal o, st')
    /\ success o = false
    /\ error o = Some (js "Unexpected error during code execution")
    /\ details o = Some (thrown_details e)
    /\ stdout o = []
    /\ stderr o = []
    /\ exit_code o = -1
    /\ execution_time_ms o = Some (t1 - t0)
    /\ help o = None.
Proof.
  intros B R. eexists.
  split; [exact (execute_thrown _ _ _ _ _ _ _ B R)|].
  repeat split.
Qed.

End Claims.

(** ** The claims at work on the scripted host *)

(** The schema lets the three spaces through, with the default
    timeout. *)
Example three_spaces_pass_the_schema :
  parameters three_spaces None = Some (three_spaces, 10).
Proof. reflexivity. Qed.

(** C3 as the specification words it does not hold: the outcome for a
    blank code string has no [execution_time_ms]. *)
Lemma blank_code_outcome_lacks_execution_time :
  ~ (forall (code : jsstring) (timeout_seconds : Z) (st : State Scripted),
        exists (o : Outcome) (st' : State Scripted) (ms : Z),
          execute code timeout_seconds st = (Normal o, st')
          /\ execution_time_ms o = Some ms).
Proof.
  intros H.
  destruct (H three_spaces 10 (fresh hello_world)) as [o [st' [ms [E T]]]].
  rewrite execute_blank in E by reflexivity.
  injection E as <- _. discriminate T.
Qed.

Lemma blank_code_witness :
  blank [0x0020; LF; 0x0009; 0x00A0]%N = true
  /\ execute [0x0020; LF; 0x0009; 0x00A0]%N 10 (fresh no_python)
     = (Normal {| success := false;
                  error := Some (js "No code provided");
                  details := None;
                  stdout := [];
                  stderr := [];
                  exit_code := -1;
                  execution_time_ms := None;
                  help := None |}, fresh no_python)
  /\ spawned (snd (execute [0x0020; LF; 0x0009; 0x00A0]%N 10 (fresh no_python)))
     = [].
Proof.
  split; [reflexivity|].
  apply (blank_code_is_rejected_without_spawning
           [0x0020; LF; 0x0009; 0x00A0]%N 10 (fresh no_python)).
  reflexivity.
Defined.

Lemma hello_world_witness :
  exists (o : Outcome) (st' : State Scripted),
    execute (js "print('hello')") 10 (fresh hello_world) = (Normal o, st')
    /\ success o = true
    /\ stdout o = js "hello"
    /\ stderr o = []
    /\ exit_code o = 0
    /\ execution_time_ms o = Some 42
    /\ List.length (spawned st') = 1%nat.
Proof.
  edestruct (exit_status_zero_is_success
               (js "print('hello')") 10 (fresh hello_world))
    as [o [E [O _]]];
    [reflexivity | reflexivity | reflexivity | reflexivity |].
  exists o. eexists. split; [exact E|].
  subst o. repeat split.
Defined.

Lemma failing_runs_witness :
  (exists (o : Outcome) (st' : State Scripted),
      execute (js "raise SystemExit(3)") 10 (fresh exits_with_3) = (Normal o, st')
      /\ success o = false
      /\ exit_code o = 3
      /\ stderr o = js "boom")
  /\ (exists (o : Outcome) (st' : State Scripted),
         execute (js "while True: pass") 10 (fresh killed_by_signal) = (Normal o, st')
         /\ success o = false
         /\ exit_code o = -1
         /\ stdout o = js "partial").
Proof.
  split.
  - edestruct (nonzero_exit_or_signal_is_failure
                 (js "raise SystemExit(3)") 10 (fresh exits_with_3))
      with (n := 3)
      as [o [E [O _]]];
      [reflexivity | reflexivity | reflexivity
       | left; split; [reflexivity | discriminate] |].
    exists o. eexists. split; [exact E|]. subst o. repeat split.
  - edestruct (nonzero_exit_or_signal_is_failure
                 (js "while True: pass") 10 (fresh killed_by_signal))
      with (n := -1)
      as [o [E [O _]]];
      [reflexivity | reflexivity | reflexivity
       | right; split; [reflexivity|];
         split; [exists (js "SIGKILL"); split; [reflexivity | discriminate]
                | reflexivity] |].
    exists o. eexists. split; [exact E|]. subst o. repeat split.
Defined.

Lemma no_python_witness :
  exists (o : Outcome) (st' : State Scripted),
    execute (js "print(1)") 10 (fresh no_python) = (Normal o, st')
    /\ success o = false
    /\ error o = Some (js "Python 3 is not installed or not found in PATH")
    /\ exit_code o = -1
    /\ help o = Some (js "Install Python from https://www.python.org/downloads/").
Proof.
  destruct (interpreter_not_found_carries_help
              (js "print(1)") 10 (fresh no_python))
    as [o [st' [E [Yes _]]]].
  exists o, st'. split; [exact E|]. apply Yes. reflexivity.
Defined.

Lemma too_slow_witness :
  exists o : Outcome,
    fst (execute (js "import time; time.sleep(60)") 10 (fresh too_slow)) = Normal o
    /\ success o = false
    /\ error o = Some (js "Execution timed out after 10 seconds")
    /\ exit_code o = -1.
Proof.
  edestruct (timeout_reports_configured_bound
               (js "import time; time.sleep(60)") 10 (fresh too_slow))
    as [o [E [S [M [_ [X _]]]]]];
    [unfold timeout_in_schema; lia
    | reflexivity | reflexivity | reflexivity | reflexivity |].
  exists o. rewrite E. repeat split; assumption.
Defined.

(** The length of the capture, without writing it out. *)
Lemma too_loud_capture_length :
  Z.of_nat (List.length too_loud_capture) = 1114112.
Proof.
  unfold too_loud_capture. rewrite repeat_length. apply N_nat_Z.
Qed.

(** What the host answers along a run that outgrows the cap, whatever
    was captured. *)
Lemma loud_run_answers (code capture : jsstring) :
  host_run code 10 (fresh (loud_run capture))
  = (1000, Normal (overflow_report capture), 1120,
     {| world := {| clock := 1120; elapse := 120;
                    reply := Normal (overflow_report capture) |};
        spawned := [python_call code 10] |}).
Proof. reflexivity. Qed.

(** The outcome of such a run is as long as the capture. *)
Lemma loud_run_outcome_length (code capture : jsstring) (o : Outcome)
      (st' : State Scripted) :
  blank code = false ->
  execute code 10 (fresh (loud_run capture)) = (Normal o, st') ->
  Z.of_nat (List.length capture)
  <= Z.of_nat (List.length (stdout o)) + Z.of_nat (List.length (stderr o)).
Proof.
  intros B X.
  erewrite (execute_other_error _ _ _ _ _ _ _ _ B (loud_run_answers code capture))
    in X; [|reflexivity | discriminate | discriminate].
  apply (f_equal fst) in X. cbn [fst] in X.
  apply Normal_injective in X. subst o.
  cbn [stdout stderr overflow_report stdout_of stderr_of nullish List.length].
  lia.
Qed.

Lemma too_loud_witness :
  exists o : Outcome,
    fst (execute (js "print('a' * 2000000)") 10 (fresh too_loud)) = Normal o
    /\ success o = false
    /\ error o = Some (js "Failed to start or run Python process")
    /\ Z.of_nat (List.length (stdout o)) = 1114112.
Proof.
  destruct (overflow_report_returns_the_capture
              (js "print('a' * 2000000)") 10 (fresh too_loud)
              _ _ _ _ _
              eq_refl
              (loud_run_answers (js "print('a' * 2000000)") too_loud_capture)
              eq_refl eq_refl)
    as [o [X [S [M [_ [_ [_ [L _]]]]]]]].
  exists o. rewrite X. split; [reflexivity|]. split; [exact S|].
  split; [exact M|]. rewrite L. exact too_loud_capture_length.
Defined.

(** C4 as the specification words it does not hold: a child that has
    exited with status 0 while the supervisor reports an error is not a
    success. *)
Lemma status_zero_under_error_is_no_success :
  ~ (forall (code : jsstring) (timeout_seconds : Z) (st : State Scripted)
            (t0 t1 : Z) (result : SpawnSyncReturns) (st' : State Scripted),
        blank code = false ->
        host_run code timeout_seconds st = (t0, Normal result, t1, st') ->
        status result = Some 0 ->
        exists o : Outcome,
          execute code timeout_seconds st = (Normal o, st')
          /\ success o = true
          /\ exit_code o = 0).
Proof.
  intros H.
  edestruct (H (js "print('done')") 10 (fresh done_at_the_deadline))
    as [o [X [S _]]];
    [reflexivity | reflexivity | reflexivity |].
  vm_compute in X. injection X as <-. discriminate S.
Qed.

(** C5 as the specification words it does not hold: a child that the
    supervisor ends with a signal because the time has run out gets the
    timeout failure, with its output as it was captured, and not the
    "Python execution failed" failure with trimmed output. *)
Lemma signal_under_error_is_no_execution_failure :
  ~ (forall (code : jsstring) (timeout_seconds : Z) (st : State Scripted)
            (t0 t1 : Z) (result : SpawnSyncReturns) (st' : State Scripted)
            (sig : jsstring),
        blank code = false ->
        host_run code timeout_seconds st = (t0, Normal result, t1, st') ->
        status result = None ->
        signal result = Some sig ->
        sig <> [] ->
        exists o : Outcome,
          execute code timeout_seconds st = (Normal o, st')
          /\ success o = false
          /\ error o = Some (js "Python execution failed")
          /\ exit_code o = -1
          /\ stdout o = trimEnd (stdout_of result ?? [])).
Proof.
  intros H.
  edestruct (H (js "import time; time.sleep(60)") 10
               (fresh killed_at_the_deadline))
    as [o [X [_ [M _]]]];
    [reflexivity | reflexivity | reflexivity | reflexivity | discriminate |].
  vm_compute in X. injection X as <-. discriminate M.
Qed.

(** C8 as the specification words it does not hold: what the outcome
    holds of a run that outgrew the cap is not cut to the cap. *)
Lemma overflowing_capture_is_not_cut_to_the_cap :
  ~ (forall (code : jsstring) (timeout_seconds : Z) (st : State Scripted)
            (t0 t1 : Z) (result : SpawnSyncReturns) (st' : State Scripted),
        blank code = false ->
        host_run code timeout_seconds st = (t0, Normal result, t1, st') ->
        output_cap < Z.of_nat (List.length (stdout_of result ?? []))
                     + Z.of_nat (List.length (stderr_of result ?? [])) ->
        exists o : Outcome,
          execute code timeout_seconds st = (Normal o, st')
          /\ Z.of_nat (List.length (stdout o))
             + Z.of_nat (List.length (stderr o)) <= output_cap).
Proof.
  intros H.
  assert (B : blank (js "print('a' * 2000000)") = false) by reflexivity.
  destruct (H _ _ _ _ _ _ _ B
              (loud_run_answers (js "print('a' * 2000000)") too_loud_capture))
    as [o [X L]].
  - change (stdout_of (overflow_report too_loud_capture) ?? [])
      with too_loud_capture.
    rewrite too_loud_capture_length. unfold output_cap.
    pose proof (Nat2Z.is_nonneg
                  (List.length (stderr_of (overflow_report too_loud_capture)
                                ?? []))).
    lia.
  - pose proof (loud_run_outcome_length _ _ _ _ B X) as G.
    rewrite too_loud_capture_length in G. unfold output_cap in L. lia.
Qed.

Lemma refused_arguments_witness :
  exists o : Outcome,
    fst (execute (js "print(1)" ++ [NUL]) 10 (fresh refuses)) = Normal o
    /\ success o = false
    /\ error o = Some (js "Unexpected error during code execution")
    /\ details o
       = Some (js "The argument 'args[1]' must be a string without null bytes")
    /\ stdout o = []
    /\ stderr o = []
    /\ exit_code o = -1.
Proof.
  edestruct (thrown_error_yields_default_outcome
               (js "print(1)" ++ [NUL]) 10 (fresh refuses))
    as [o [E [S [M [D [So [Se [X _]]]]]]]];
    [reflexivity | reflexivity |].
  exists o. rewrite E. repeat split; assumption.
Defined.

(** ** More about [execute] *)

(** Splits a goal along the seven ways in which [execute] ends; each
    case comes with the equation [X] for [execute] in that case. *)
Ltac execute_cases code t st :=
  let B := fresh "B" in
  destruct (blank code) eqn:B;
  [ pose proof (execute_blank code t st B) as X
  | let R := fresh "R" in
    let t0 := fresh "t0" in
    let t1 := fresh "t1" in
    let st1 := fresh "st1" in
    let r := fresh "r" in
    destruct (host_run code t st) as [[[t0 r] t1] st1] eqn:R;
    let result := fresh "result" in
    let e := fresh "e" in
    destruct r as [result|e];
    [ let err := fresh "err" in
      let E := fresh "E" in
      destruct (error_of result) as [err|] eqn:E;
      [ let C1 := fresh "C1" in
        destruct (code_is err ENOENT) eqn:C1;
        [ apply code_is_eq in C1;
          pose proof (execute_enoent _ _ _ _ _ _ _ _ B R E C1) as X
        | let C2 := fresh "C2" in
          destruct (code_is err ETIMEDOUT) eqn:C2;
          [ apply code_is_eq in C2;
            pose proof (execute_etimedout _ _ _ _ _ _ _ _ B R E C2) as X
          | apply code_is_neq in C1; apply code_is_neq in C2;
            pose proof (execute_other_error _ _ _ _ _ _ _ _ B R E C1 C2) as X ] ]
      | let x := fresh "x" in
        let Hx := fresh "Hx" in
        destruct (execute_exited _ _ _ _ _ _ _ B R E) as [x [Hx X]] ]
    | pose proof (execute_thrown _ _ _ _ _ _ _ B R) as X ] ].

Section MoreAboutExecute.

Context {W : Type} {host : Host W}.

Implicit Types (code : jsstring) (timeout_seconds : Z) (st : State W).

(** The reply of the supervisor in [host_run] is its answer to the one
    call of [execute]. *)
Lemma host_run_reply code timeout_seconds st t0 r t1 st' :
  host_run code timeout_seconds st = (t0, r, t1, st') ->
  exists w : W, r = fst (host_spawn (python_call code timeout_seconds) w).
Proof.
  unfold host_run. intros R.
  destruct (host_now (world st)) as [a w1].
  destruct (host_spawn (python_call code timeout_seconds) w1) as [x w2] eqn:S.
  destruct (host_now w2) as [b w3].
  injection R as _ <- _ _. exists w1. now rewrite S.
Qed.

(** X1. The fields of every outcome agree with one another: [success] is
    true exactly when there is no [error] text, and exactly when
    [exit_code] is 0; a successful outcome carries neither [details] nor
    [help]. *)
Theorem outcome_fields_agree code timeout_seconds st :
  exists (o : Outcome) (st' : State W),
    execute code timeout_seconds st = (Normal o, st')
    /\ (success o = true <-> error o = None)
    /\ (success o = true <-> exit_code o = 0)
    /\ (success o = true -> details o = None /\ help o = None).
Proof.
  execute_cases code timeout_seconds st;
    eexists; eexists; (split; [exact X|]); cbn [success error exit_code details help].
  1-4,6: (split; [split; discriminate|]);
         (split; [split; discriminate|]); discriminate.
  destruct (Z.eqb_spec x 0) as [Z0|Z0].
  - split; [tauto|]. split; [tauto|]. tauto.
  - split; [split; discriminate|]. split; [split; [discriminate | tauto]|].
    discriminate.
Qed.

(** X2. An outcome that says [success] is never the sandbox's own doing:
    the code was not blank, a child was asked for, the supervisor
    reported no error, and the child left with status 0 or, when the
    supervisor gives no status, without a signal either. *)
Theorem success_means_clean_exit code timeout_seconds st o st' :
  execute code timeout_seconds st = (Normal o, st') ->
  success o = true ->
  blank code = false
  /\ exists (t0 t1 : Z) (result : SpawnSyncReturns),
       host_run code timeout_seconds st = (t0, Normal result, t1, st')
       /\ error_of result = None
       /\ (status result = Some 0
           \/ (status result = None
               /\ (signal result = None \/ signal result = Some [])))
       /\ stdout o = trimEnd (stdout_of result ?? [])
       /\ stderr o = trimEnd (stderr_of result ?? [])
       /\ execution_time_ms o = Some (t1 - t0).
Proof.
  intros H S.
  execute_cases code timeout_seconds st; rewrite X in H;
    injection H as <- <-; cbn [success] in S; try discriminate S.
  split; [reflexivity|]. exists t0, t1, result.
  split; [reflexivity|]. split; [exact E|].
  apply Z.eqb_eq in S. rewrite Hx in S. clear Hx.
  split; [|repeat split].
  destruct (status result) as [n|]; [left; now rewrite S|]. right.
  split; [reflexivity|].
  destruct (signal result) as [[|c sig]|]; [now right | discriminate S | now left].
Qed.

(** X3. The "Python execution failed" text is only ever said of a child
    that ran: the supervisor reported no error and the child left with a
    status other than 0, which is the [exit_code], or was ended by a
    signal, and then the [exit_code] is -1. *)
Theorem execution_failed_means_child_failed code timeout_seconds st o st' :
  execute code timeout_seconds st = (Normal o, st') ->
  error o = Some (js "Python execution failed") ->
  blank code = false
  /\ success o = false
  /\ exists (t0 t1 : Z) (result : SpawnSyncReturns),
       host_run code timeout_seconds st = (t0, Normal result, t1, st')
       /\ error_of result = None
       /\ ((status result = Some (exit_code o) /\ exit_code o <> 0)
           \/ (status result = None
               /\ (exists sig, signal result = Some sig /\ sig <> [])
               /\ exit_code o = -1)).
Proof.
  intros H S.
  execute_cases code timeout_seconds st; rewrite X in H;
    injection H as <- <-; cbn [error] in S; try discriminate S.
  cbn [success exit_code].
  destruct (Z.eqb_spec x 0) as [Z0|Z0]; [discriminate S|].
  split; [reflexivity|]. split; [reflexivity|].
  exists t0, t1, result. split; [reflexivity|]. split; [exact E|].
  rewrite Hx in Z0 |- *. clear Hx.
  destruct (status result) as [n|]; [left; now split|]. right.
  split; [reflexivity|].
  destruct (signal result) as [[|c sig]|]; try (now contradiction Z0).
  split; [|reflexivity]. exists (c :: sig). split; [reflexivity | discriminate].
Qed.

(** X4. A call creates at most one child and never tries again: none for
    a blank code string, exactly one otherwise, whatever the outcome.
    The child is [python3 -c code], and the code is also its standard
    input. *)
Theorem one_child_per_call code timeout_seconds st :
  spawned (snd (execute code timeout_seconds st))
  = spawned st
      ++ (if blank code then []
          else [{| command := js "python3";
                   args := [js "-c"; code];
                   options := {| input := code;
                                 timeout := timeout_seconds * 1000;
                                 encoding := js "utf-8";
                                 maxBuffer := 1048576 |} |}]).
Proof.
  destruct (blank code) eqn:B.
  - rewrite (execute_blank code timeout_seconds st B). cbn [snd].
    now rewrite app_nil_r.
  - exact (proj1 (execute_spawns_once code timeout_seconds st B)).
Qed.

(** X5. When the supervisor reports an error that is neither ENOENT nor
    ETIMEDOUT (or an error without a code), the outcome is the "Failed
    to start or run Python process" failure with [exit_code] -1, and the
    reason is not lost: [stderr] is the captured stderr when there is
    one, else the message of the error, else the error as a string. *)
Theorem process_error_surfaces_reason
        code timeout_seconds st t0 result err t1 st' :
  blank code = false ->
  host_run code timeout_seconds st = (t0, Normal result, t1, st') ->
  error_of result = Some err ->
  err_code err <> Some ENOENT ->
  err_code err <> Some ETIMEDOUT ->
  exists o : Outcome,
    execute code timeout_seconds st = (Normal o, st')
    /\ success o = false
    /\ error o = Some (js "Failed to start or run Python process")
    /\ exit_code o = -1
    /\ help o = None
    /\ details o = None
    /\ stderr o = match stderr_of result, err_message err with
                  | Some captured, _ => captured
                  | None, Some message => message
                  | None, None => err_String err
                  end.
Proof.
  intros B R E C1 C2. eexists.
  split; [exact (execute_other_error _ _ _ _ _ _ _ _ B R E C1 C2)|].
  cbn [success error exit_code help details stderr].
  repeat split.
Qed.

(** X6. Whatever error the supervisor reports, what it captured of stdout
    is handed on as it is, white space at the end included, and an
    absent capture becomes the empty string; [exit_code] is -1 and the
    elapsed time is reported. *)
Theorem supervisor_error_keeps_stdout
        code timeout_seconds st t0 result err t1 st' :
  blank code = false ->
  host_run code timeout_seconds st = (t0, Normal result, t1, st') ->
  error_of result = Some err ->
  exists o : Outcome,
    execute code timeout_seconds st = (Normal o, st')
    /\ success o = false
    /\ exit_code o = -1
    /\ stdout o = stdout_of result ?? []
    /\ (forall captured, stderr_of result = Some captured ->
                         stderr o = captured)
    /\ execution_time_ms o = Some (t1 - t0).
Proof.
  intros B R E.
  destruct (code_is err ENOENT) eqn:C1;
    [|destruct (code_is err ETIMEDOUT) eqn:C2].
  - apply code_is_eq in C1. eexists.
    split; [exact (execute_enoent _ _ _ _ _ _ _ _ B R E C1)|].
    repeat split. intros c ->. reflexivity.
  - apply code_is_eq in C2. eexists.
    split; [exact (execute_etimedout _ _ _ _ _ _ _ _ B R E C2)|].
    repeat split. intros c ->. reflexivity.
  - apply code_is_neq in C1. apply code_is_neq in C2. eexists.
    split; [exact (execute_other_error _ _ _ _ _ _ _ _ B R E C1 C2)|].
    repeat split. intros c ->. reflexivity.
Qed.

(** X7. When the supervisor reports no error, no status and no signal (or
    an empty signal name), the exit code is taken to be 0 and the
    outcome is a success. *)
Theorem no_status_no_signal_is_success
        code timeout_seconds st t0 result t1 st' :
  blank code = false ->
  host_run code timeout_seconds st = (t0, Normal result, t1, st') ->
  error_of result = None ->
  status result = None ->
  signal result = None \/ signal result = Some [] ->
  exists o : Outcome,
    execute code timeout_seconds st = (Normal o, st')
    /\ success o = true
    /\ exit_code o = 0
    /\ error o = None
    /\ stdout o = trimEnd (stdout_of result ?? [])
    /\ stderr o = trimEnd (stderr_of result ?? []).
Proof.
  intros B R E S G.
  destruct (execute_exited _ _ _ _ _ _ _ B R E) as [x [Hx X]].
  rewrite S in Hx.
  assert (x = 0) as -> by (destruct G as [G | G]; rewrite G in Hx; exact Hx).
  eexists. split; [exact X|]. repeat split.
Qed.

(** X8. The outcome has [details] exactly when [spawnSync] threw, and
    [details] is then what was thrown: the message of an [Error], the
    string conversion of anything else. *)
Theorem details_only_when_thrown code timeout_seconds st o st' d :
  execute code timeout_seconds st = (Normal o, st') ->
  details o = Some d
  <-> (blank code = false
       /\ exists (t0 t1 : Z) (e : Thrown),
            host_run code timeout_seconds st = (t0, Abrupt e, t1, st')
            /\ d = thrown_details e).
Proof.
  intros H.
  execute_cases code timeout_seconds st; rewrite X in H;
    injection H as <- <-; cbn [details].
  1: split; [discriminate | intros [Bf _]; discriminate Bf].
  1-4: split; [discriminate | intros [_ [? [? [? [Heq _]]]]]; discriminate Heq].
  split.
  - intros [= <-]. split; [reflexivity|]. now exists t0, t1, e.
  - intros [_ [? [? [? [Heq ->]]]]]. now injection Heq as _ <- _.
Qed.

(** X9. No state is carried from one call to the next: with a supervisor
    that answers a call alike whenever it is asked, a second call with
    the same arguments gives the same outcome as the first in every field
    but the elapsed time. *)
Theorem repeated_call_same_outcome code timeout_seconds st o1 st1 o2 st2 :
  answers_alike ->
  execute code timeout_seconds st = (Normal o1, st1) ->
  execute code timeout_seconds st1 = (Normal o2, st2) ->
  success o2 = success o1
  /\ error o2 = error o1
  /\ details o2 = details o1
  /\ stdout o2 = stdout o1
  /\ stderr o2 = stderr o1
  /\ exit_code o2 = exit_code o1
  /\ help o2 = help o1.
Proof.
  intros A H1 H2.
  destruct (blank code) eqn:B.
  - rewrite (execute_blank code timeout_seconds st B) in H1.
    rewrite (execute_blank code timeout_seconds st1 B) in H2.
    injection H1 as <- _. injection H2 as <- _. repeat split.
  - destruct (host_run code timeout_seconds st) as [[[a r] b] s1] eqn:R1.
    destruct (host_run code timeout_seconds st1) as [[[a' r'] b'] s2] eqn:R2.
    destruct (host_run_reply _ _ _ _ _ _ _ R1) as [w1 E1].
    destruct (host_run_reply _ _ _ _ _ _ _ R2) as [w2 E2].
    assert (r' = r) as -> by (rewrite E1, E2; apply A).
    clear E1 E2.
    destruct r as [result|e].
    + destruct (error_of result) as [err|] eqn:E.
      * destruct (code_is err ENOENT) eqn:C1;
          [|destruct (code_is err ETIMEDOUT) eqn:C2].
        -- apply code_is_eq in C1.
           rewrite (execute_enoent _ _ _ _ _ _ _ _ B R1 E C1) in H1.
           rewrite (execute_enoent _ _ _ _ _ _ _ _ B R2 E C1) in H2.
           injection H1 as <- _. injection H2 as <- _. repeat split.
        -- apply code_is_eq in C2.
           rewrite (execute_etimedout _ _ _ _ _ _ _ _ B R1 E C2) in H1.
           rewrite (execute_etimedout _ _ _ _ _ _ _ _ B R2 E C2) in H2.
           injection H1 as <- _. injection H2 as <- _. repeat split.
        -- apply code_is_neq in C1. apply code_is_neq in C2.
           rewrite (execute_other_error _ _ _ _ _ _ _ _ B R1 E C1 C2) in H1.
           rewrite (execute_other_error _ _ _ _ _ _ _ _ B R2 E C1 C2) in H2.
           injection H1 as <- _. injection H2 as <- _. repeat split.
      * destruct (execute_exited _ _ _ _ _ _ _ B R1 E) as [x [Hx X1]].
        destruct (execute_exited _ _ _ _ _ _ _ B R2 E) as [y [Hy X2]].
        assert (y = x) as -> by congruence.
        rewrite X1 in H1. rewrite X2 in H2.
        injection H1 as <- _. injection H2 as <- _. repeat split.
    + rewrite (execute_thrown _ _ _ _ _ _ _ B R1) in H1.
      rewrite (execute_thrown _ _ _ _ _ _ _ B R2) in H2.
      injection H1 as <- _. injection H2 as <- _. repeat split.
Qed.

(** X10. For every call that the parameter schema lets through and whose
    code is not blank, the supervisor is given a bound of at least one
    and at most thirty seconds, in milliseconds: never zero or less. A
    call without [timeout_seconds] runs under ten seconds. *)
Theorem schema_bounds_the_timeout code given code' timeout_seconds st :
  parameters code given = Some (code', timeout_seconds) ->
  blank code' = false ->
  exists call : SpawnCall,
    spawned (snd (execute code' timeout_seconds st)) = spawned st ++ [call]
    /\ 1000 <= timeout (options call) <= 30000
    /\ (given = None -> timeout (options call) = 10000).
Proof.
  intros P B.
  destruct (execute_spawns_once code' timeout_seconds st B) as [S _].
  exists (python_call code' timeout_seconds). split; [exact S|].
  cbn [python_call options timeout].
  unfold parameters in P.
  destruct (1 <=? List.length code)%nat; [|discriminate P].
  cbv zeta in P.
  destruct ((1 <=? given ?? 10) && (given ?? 10 <=? 30)) eqn:T;
    [|discriminate P].
  injection P as _ <-.
  apply andb_true_iff in T as [T1 T2].
  apply Z.leb_le in T1. apply Z.leb_le in T2.
  split; [lia|]. intros ->. reflexivity.
Qed.

End MoreAboutExecute.

(** ** The further facts at work *)

Lemma outcome_fields_agree_witness :
  exists (o : Outcome) (st' : State Scripted),
    execute (js "raise SystemExit(3)") 10 (fresh exits_with_3) = (Normal o, st')
    /\ (success o = true <-> error o = None)
    /\ (success o = true <-> exit_code o = 0).
Proof.
  destruct (outcome_fields_agree (js "raise SystemExit(3)") 10 (fresh exits_with_3))
    as [o [st' [E [I1 [I2 _]]]]].
  exists o, st'. repeat split; solve [exact E | apply I1 | apply I2].
Defined.

Lemma success_means_clean_exit_witness :
  blank (js "print('hello')") = false
  /\ exists (t0 t1 : Z) (result : SpawnSyncReturns),
       host_run (js "print('hello')") 10 (fresh hello_world)
       = (t0, Normal result, t1,
          snd (execute (js "print('hello')") 10 (fresh hello_world)))
       /\ error_of result = None.
Proof.
  edestruct (success_means_clean_exit
               (js "print('hello')") 10 (fresh hello_world))
    as [B [t0 [t1 [result [R [E _]]]]]];
    [reflexivity | reflexivity |].
  split; [exact B|]. exists t0, t1, result. split; [exact R | exact E].
Defined.

Lemma execution_failed_means_child_failed_witness :
  exists o : Outcome,
    fst (execute (js "raise SystemExit(3)") 10 (fresh exits_with_3)) = Normal o
    /\ blank (js "raise SystemExit(3)") = false
    /\ success o = false.
Proof.
  edestruct (execution_failed_means_child_failed
               (js "raise SystemExit(3)") 10 (fresh exits_with_3))
    as [B [S _]];
    [reflexivity | reflexivity |].
  eexists. split; [reflexivity|]. split; [exact B | exact S].
Defined.

Lemma process_error_witness :
  exists o : Outcome,
    fst (execute (js "print(1)") 10 (fresh not_permitted)) = Normal o
    /\ error o = Some (js "Failed to start or run Python process")
    /\ stderr o = js "spawnSync python3 EACCES".
Proof.
  edestruct (process_error_surfaces_reason
               (js "print(1)") 10 (fresh not_permitted))
    as [o [X [_ [M [_ [_ [_ S]]]]]]];
    [reflexivity | reflexivity | reflexivity | discriminate | discriminate |].
  exists o. rewrite X. repeat split; assumption.
Defined.

Lemma timeout_keeps_partial_output_witness :
  exists o : Outcome,
    fst (execute (js "import time; time.sleep(60)") 10 (fresh too_slow)) = Normal o
    /\ stdout o = js "tick"
    /\ exit_code o = -1
    /\ execution_time_ms o = Some 10004.
Proof.
  edestruct (supervisor_error_keeps_stdout
               (js "import time; time.sleep(60)") 10 (fresh too_slow))
    as [o [X [_ [C [So [_ T]]]]]];
    [reflexivity | reflexivity | reflexivity |].
  exists o. rewrite X. repeat split; assumption.
Defined.

Lemma no_status_witness :
  exists o : Outcome,
    fst (execute (js "print('out')") 10 (fresh no_status)) = Normal o
    /\ success o = true
    /\ exit_code o = 0
    /\ stdout o = js "out".
Proof.
  edestruct (no_status_no_signal_is_success
               (js "print('out')") 10 (fresh no_status))
    as [o [X [S [C [_ [So _]]]]]];
    [reflexivity | reflexivity | reflexivity | reflexivity | now left |].
  exists o. rewrite X. repeat split; assumption.
Defined.

Lemma details_witness :
  blank (js "print(1)" ++ [NUL]) = false
  /\ exists (t0 t1 : Z) (e : Thrown),
       host_run (js "print(1)" ++ [NUL]) 10 (fresh refuses)
       = (t0, Abrupt e, t1,
          snd (execute (js "print(1)" ++ [NUL]) 10 (fresh refuses)))
       /\ js "The argument 'args[1]' must be a string without null bytes"
          = thrown_details e.
Proof.
  refine (proj1 (details_only_when_thrown
                   (js "print(1)" ++ [NUL]) 10 (fresh refuses) _ _ _ _) _);
    reflexivity.
Defined.

Lemma repeated_call_witness :
  exists (o1 o2 : Outcome) (st1 st2 : @State Z),
    @execute Z echo_host (js "print(1)") 10 {| world := 0; spawned := [] |}
    = (Normal o1, st1)
    /\ @execute Z echo_host (js "print(1)") 10 st1 = (Normal o2, st2)
    /\ stdout o2 = stdout o1
    /\ success o2 = success o1
    /\ List.length (spawned st2) = 2%nat.
Proof.
  edestruct (@repeated_call_same_outcome Z echo_host (js "print(1)") 10
               {| world := 0; spawned := [] |})
    as [S [_ [_ [So _]]]];
    [intros c w w'; reflexivity | reflexivity | reflexivity |].
  do 4 eexists. split; [reflexivity|]. split; [reflexivity|].
  split; [exact So|]. split; [exact S | reflexivity].
Defined.

Lemma schema_bounds_witness :
  exists call : SpawnCall,
    spawned (snd (execute (js "print(1)") 10 (fresh hello_world))) = [call]
    /\ timeout (options call) = 10000.
Proof.
  destruct (schema_bounds_the_timeout
              (js "print(1)") None (js "print(1)") 10 (fresh hello_world)
              eq_refl eq_refl)
    as [call [S [_ D]]].
  exists call. split; [exact S | now apply D].
Defined.

(** ** Facts about the weather tool: strings *)

Module WeatherStrings.
Import Weather.

Lemma startsWith_iff (s prefix : jsstring) :
  startsWith s prefix = true <-> exists rest, s = prefix ++ rest.
Proof.
  revert s. induction prefix as [|p prefix IH]; intros s.
  - split; [intros _; now exists s | intros _; now destruct s].
  - destruct s as [|c s]; simpl.
    + split; [discriminate | intros [rest H]; discriminate H].
    + rewrite andb_true_iff, N.eqb_eq, IH. split.
      * intros [-> [rest ->]]. now exists rest.
      * intros [rest H]. injection H as -> ->. split; [reflexivity | now exists rest].
Qed.

(** [includes] finds the string exactly when it occurs somewhere. *)
Lemma includes_iff (s sub : jsstring) :
  includes s sub = true <-> exists before after, s = before ++ sub ++ after.
Proof.
  induction s as [|c s IH].
  - cbn [includes]. rewrite orb_false_r, startsWith_iff. split.
    + intros [rest H]. now exists [], rest.
    + intros [before [after H]]. destruct before; simpl in H.
      * now exists after.
      * discriminate H.
  - cbn [includes]. rewrite orb_true_iff, startsWith_iff, IH. split.
    + intros [[rest H] | [before [after H]]].
      * now exists [], rest.
      * exists (c :: before), after. simpl. now rewrite H.
    + intros [before [after H]]. destruct before as [|b before]; simpl in H.
      * left. now exists after.
      * right. injection H as _ H. now exists before, after.
Qed.

Lemma hex_digit_no_separator (n : N) :
  hex_digit n <> AMPERSAND /\ hex_digit n <> EQUALS.
Proof.
  unfold hex_digit, AMPERSAND, EQUALS.
  destruct (N.ltb_spec n 10); split; lia.
Qed.

Lemma unescaped_no_separator (b : N) :
  unescaped b = true -> b <> AMPERSAND /\ b <> EQUALS.
Proof.
  unfold unescaped, AMPERSAND, EQUALS. intros H.
  split; intros ->; discriminate H.
Qed.

Lemma encode_byte_no_separator (b : N) :
  free_of AMPERSAND (encode_byte b) /\ free_of EQUALS (encode_byte b).
Proof.
  unfold free_of, encode_byte.
  destruct (unescaped b) eqn:U.
  - destruct (unescaped_no_separator b U) as [A E].
    split; intros [H | []]; congruence.
  - destruct (hex_digit_no_separator (b / 16)) as [A1 E1].
    destruct (hex_digit_no_separator (b mod 16)) as [A2 E2].
    destruct (b =? 0x20)%N; split; simpl; intros H;
      repeat (destruct H as [H | H]; try discriminate H; try congruence);
      try contradiction.
Qed.

(** Neither [&] nor [=] survives the encoding of a name or a value. *)
Lemma form_encode_no_separator (s : jsstring) :
  free_of AMPERSAND (form_encode s) /\ free_of EQUALS (form_encode s).
Proof.
  unfold form_encode, free_of.
  split; intros H; apply in_flat_map in H as [b [_ H]];
    destruct (encode_byte_no_separator b) as [A E]; [now apply A | now apply E].
Qed.

Lemma split_on_free (sep : N) (s : jsstring) :
  free_of sep s -> split_on sep s = [s].
Proof.
  unfold free_of. induction s as [|c s IH]; simpl; intros H; [reflexivity|].
  destruct (N.eqb_spec c sep) as [->|Hc]; [exfalso; apply H; now left|].
  rewrite IH by (intros I; apply H; now right). reflexivity.
Qed.

Lemma split_on_app (sep : N) (piece rest : jsstring) :
  free_of sep piece ->
  split_on sep (piece ++ sep :: rest) = piece :: split_on sep rest.
Proof.
  unfold free_of. induction piece as [|c piece IH]; simpl; intros H.
  - now rewrite N.eqb_refl.
  - destruct (N.eqb_spec c sep) as [->|Hc]; [exfalso; apply H; now left|].
    rewrite IH by (intros I; apply H; now right). reflexivity.
Qed.

(** Splitting undoes joining, when no piece holds the separator. *)
Lemma split_on_join (sep : N) (pieces : list jsstring) :
  pieces <> [] ->
  Forall (free_of sep) pieces ->
  split_on sep (join [sep] pieces) = pieces.
Proof.
  induction pieces as [|piece rest IH]; [congruence|].
  intros _ F. inversion F as [|? ? Hp Hr]; subst.
  destruct rest as [|next rest'].
  - simpl. now apply split_on_free.
  - change (join [sep] (piece :: next :: rest'))
      with (piece ++ sep :: join [sep] (next :: rest')).
    rewrite split_on_app by assumption.
    f_equal. apply IH; [discriminate | assumption].
Qed.

(** The names read back from a serialized query are the encoded names
    that went in, one for one and in order. *)
Lemma query_names_serialized (params : list (jsstring * jsstring)) :
  params <> [] ->
  query_names (URLSearchParams_toString params)
  = map (fun p => form_encode (fst p)) params.
Proof.
  intros Hne. unfold query_names, URLSearchParams_toString.
  rewrite split_on_join.
  - rewrite map_map. apply map_ext. intros [k v]. cbn [fst snd].
    change (form_encode k ++ [EQUALS] ++ form_encode v)
      with (form_encode k ++ EQUALS :: form_encode v).
    rewrite split_on_app by apply form_encode_no_separator. reflexivity.
  - destruct params; [congruence | discriminate].
  - apply Forall_forall. intros piece H. apply in_map_iff in H as [[k v] [<- _]].
    cbn [fst snd]. unfold free_of. intros I.
    apply in_app_or in I as [I | I];
      [now apply (proj1 (form_encode_no_separator k))|].
    apply in_app_or in I as [I | I];
      [destruct I as [I | []]; discriminate I
      | now apply (proj1 (form_encode_no_separator v))].
Qed.

End WeatherStrings.

(** ** Facts about the weather tool: [execute] *)

Module WeatherFacts.
Import Weather WeatherStrings.

(** Runs [Weather.execute] along the answer of the network recorded by
    a hypothesis on [answer]. *)
Ltac run_weather A :=
  unfold execute, try_catch, bind;
  unfold answer, request_url in A;
  match type of A with
  | context [(0 <? ?n)%nat] =>
      destruct (0 <? n)%nat; cbv zeta; cbn [app] in A |- *; rewrite A
  end.

Section Facts.

Context {Num : Type} {numbers : JsNumber Num} {W : Type} {net : Net Num W}.

Implicit Types (params : Params Num) (s : Session W).

(** What the [catch] block makes of a thrown value. *)
Lemma handler_text (message : jsstring) :
  (if includes message (js "fetch failed") then NETWORK_ERROR else API_ERROR)
  = NETWORK_ERROR
  \/ (if includes message (js "fetch failed") then NETWORK_ERROR else API_ERROR)
     = API_ERROR.
Proof. destruct (includes message (js "fetch failed")); auto. Qed.

Lemma execute_rejected params s e s' :
  answer params s = (Abrupt e, s') ->
  execute params s
  = (Normal match e with
            | ThrownError message =>
                Failure (if includes message (js "fetch failed")
                         then NETWORK_ERROR else API_ERROR) message
            | ThrownOther as_string =>
                Failure (js "Unknown error occurred") as_string
            end, s').
Proof.
  intros A. run_weather A.
  all: destruct e as [m|a]; [destruct (includes m (js "fetch failed"))|];
    reflexivity.
Qed.

Lemma execute_not_ok params s response s' :
  answer params s = (Normal response, s') ->
  ok response = false ->
  execute params s
  = (Normal (Failure (if includes (statusText response) (js "fetch failed")
                      then NETWORK_ERROR else API_ERROR)
                     (js "Failed to fetch weather data: "
                        ++ statusText response)), s').
Proof.
  intros A K. run_weather A.
  all: rewrite K; cbn [negb]; unfold throw;
    change (includes (js "Failed to fetch weather data: " ++ statusText response)
                     (js "fetch failed"))
      with (includes (statusText response) (js "fetch failed"));
    destruct (includes (statusText response) (js "fetch failed")); reflexivity.
Qed.

Lemma execute_json_rejected params s response e s' :
  answer params s = (Normal response, s') ->
  ok response = true ->
  json response = Abrupt e ->
  execute params s
  = (Normal match e with
            | ThrownError message =>
                Failure (if includes message (js "fetch failed")
                         then NETWORK_ERROR else API_ERROR) message
            | ThrownOther as_string =>
                Failure (js "Unknown error occurred") as_string
            end, s').
Proof.
  intros A K J. run_weather A.
  all: rewrite K; cbn [negb]; unfold response_json; rewrite J;
    destruct e as [m|a]; [destruct (includes m (js "fetch failed"))|];
    reflexivity.
Qed.

Lemma execute_null params s response s' :
  answer params s = (Normal response, s') ->
  ok response = true ->
  json response = Normal JNull ->
  execute params s
  = (Normal (Failure API_ERROR
               (js "Cannot read properties of null (reading 'daily')")), s').
Proof.
  intros A K J. run_weather A.
  all: rewrite K; cbn [negb]; unfold response_json; rewrite J; reflexivity.
Qed.

Lemma execute_invalid params s response data s' :
  answer params s = (Normal response, s') ->
  ok response = true ->
  json response = Normal data ->
  data <> JNull ->
  valid_body data = false ->
  execute params s
  = (Normal (Failure API_ERROR
               (js "Invalid response format from Open-Meteo API")), s').
Proof.
  intros A K J N V. run_weather A.
  all: rewrite K; cbn [negb]; unfold response_json; rewrite J;
    unfold valid_body, field in V;
    destruct data as [|b|n|t|items|fields]; try congruence; try reflexivity;
    unfold get at 1; unfold ret at 1;
    destruct (lookup (js "daily") fields) as [[|b|n|t|items|dfields]|];
    cbn [truthy_value negb get]; unfold ret, throw;
    try reflexivity;
    try (destruct b; reflexivity);
    try (destruct (num_truthy n); reflexivity);
    try (destruct (truthy t); reflexivity);
    rewrite V; reflexivity.
Qed.

Lemma execute_valid params s response data s' :
  answer params s = (Normal response, s') ->
  ok response = true ->
  json response = Normal data ->
  valid_body data = true ->
  execute params s
  = (Normal
       (Forecast
          {| location_latitude := field data "latitude";
             location_longitude := field data "longitude";
             location_timezone := field data "timezone";
             location_elevation := field data "elevation" |}
          {| time := field (field data "daily" ?? JNull) "time";
             temperature_max :=
               field (field data "daily" ?? JNull) "temperature_2m_max";
             temperature_min :=
               field (field data "daily" ?? JNull) "temperature_2m_min";
             precipitation :=
               field (field data "daily" ?? JNull) "precipitation_sum";
             windspeed :=
               field (field data "daily" ?? JNull) "windspeed_10m_max";
             weathercode :=
               field (field data "daily" ?? JNull) "weathercode" |}
          (field data "daily_units")), s').
Proof.
  intros A K J V. run_weather A.
  all: rewrite K; cbn [negb]; unfold response_json; rewrite J;
    unfold valid_body, field in V |- *;
    destruct data as [|b|n|t|items|fields]; try discriminate V;
    unfold get at 1; unfold ret at 1;
    destruct (lookup (js "daily") fields) as [[|b|n|t|items|dfields]|];
    try discriminate V;
    cbn [truthy_value negb get nullish]; unfold ret;
    rewrite V; reflexivity.
Qed.

(** What [fetch] leaves behind: one more requested URL. *)
Lemma answer_session params s r s' :
  answer params s = (r, s') ->
  requested s' = requested s ++ [request_url params].
Proof.
  unfold answer, fetch.
  destruct (net_fetch (request_url params) (world s)) as [x w].
  intros [= _ <-]. reflexivity.
Qed.

End Facts.

(** Splits a goal along the ways in which [Weather.execute] ends; each
    case comes with the equation [X] for [execute] in that case. *)
Ltac weather_cases params s :=
  let A := fresh "A" in
  let s1 := fresh "s1" in
  let response := fresh "response" in
  let e := fresh "e" in
  destruct (answer params s) as [[response|e] s1] eqn:A;
  [ let K := fresh "K" in
    destruct (ok response) eqn:K;
    [ let J := fresh "J" in
      let data := fresh "data" in
      destruct (json response) as [data|e] eqn:J;
      [ let V := fresh "V" in
        destruct (valid_body data) eqn:V;
        [ pose proof (execute_valid _ _ _ _ _ A K J V) as X
        | let N := fresh "N" in
          assert (N : data = JNull \/ data <> JNull)
            by (destruct data; solve [now left | now right]);
          destruct N as [N | N];
          [ rewrite N in J;
            pose proof (execute_null _ _ _ _ A K J) as X
          | pose proof (execute_invalid _ _ _ _ _ A K J N V) as X ] ]
      | pose proof (execute_json_rejected _ _ _ _ _ A K J) as X ]
    | pose proof (execute_not_ok _ _ _ _ A K) as X ]
  | pose proof (execute_rejected _ _ _ _ A) as X ].

Section Properties.

Context {Num : Type} {numbers : JsNumber Num} {W : Type} {net : Net Num W}.

Implicit Types (params : Params Num) (s : Session W).

(** X11. [weatherTool.execute] never throws: whatever [fetch] and
    [response.json()] do, and whatever the body holds, the call ends with
    a result object. *)
Theorem weather_never_throws params s :
  exists (r : Result Num) (s' : Session W),
    execute params s = (Normal r, s').
Proof.
  weather_cases params s; eexists; eexists; exact X.
Qed.

(** X12. Every call sends exactly one request, whatever becomes of it. The
    URL is the forecast endpoint followed by a query whose parameters
    are [latitude], [longitude], [forecast_days] and [timezone], and
    [daily] when variables are asked for: no text in the arguments can
    add, drop or rename a parameter. *)
Theorem one_request_with_fixed_parameters params s :
  exists query : jsstring,
    requested (snd (execute params s))
    = requested s
        ++ [js "https://api.open-meteo.com/v1/forecast" ++ js "?" ++ query]
    /\ query_names query
       = [js "latitude"; js "longitude"; js "forecast_days"; js "timezone"]
           ++ match daily params with
              | [] => []
              | _ :: _ => [js "daily"]
              end.
Proof.
  eexists. split.
  - assert (S : snd (execute params s) = snd (answer params s))
      by (weather_cases params s; now rewrite X).
    rewrite S.
    destruct (answer params s) as [r s'] eqn:A. cbn [snd].
    rewrite (answer_session _ _ _ _ A). reflexivity.
  - rewrite query_names_serialized by discriminate.
    destruct (daily params); reflexivity.
Qed.

(** X13. The result is a forecast exactly when the service answered with an
    OK status and a body that parses to an object whose [daily] is an
    object with a truthy [time]. *)
Theorem forecast_iff_valid_body params s r s' :
  execute params s = (Normal r, s') ->
  success r = true
  <-> exists (response : Response Num) (data : Json Num),
        answer params s = (Normal response, s')
        /\ ok response = true
        /\ json response = Normal data
        /\ valid_body data = true.
Proof.
  intros H.
  weather_cases params s; rewrite X in H; injection H as <- <-.
  - split; [intros _; now exists response, data | reflexivity].
  - split; [discriminate|].
    intros [r' [d [[= <-] [_ [J' V']]]]]. rewrite J in J'.
    injection J' as <-. discriminate V'.
  - split; [discriminate|].
    intros [r' [d [[= <-] [_ [J' V']]]]]. rewrite J in J'.
    injection J' as <-. congruence.
  - split.
    + destruct e as [m|a]; [destruct (includes _ _)|]; discriminate.
    + intros [r' [d [[= <-] [_ [J' _]]]]]. congruence.
  - split.
    + destruct (includes _ _); discriminate.
    + intros [r' [d [[= <-] [K' _]]]]. congruence.
  - split.
    + destruct e as [m|a]; [destruct (includes _ _)|]; discriminate.
    + intros [r' [d [[=] _]]].
Qed.

(** X14. A forecast is the body of the answer, field by field, under the
    names of the tool: [temperature_max] is [daily.temperature_2m_max],
    [precipitation] is [daily.precipitation_sum], and so on. A field
    that the body lacks is left undefined; it does not fail the call. *)
Theorem forecast_copies_the_body params s response data s' :
  answer params s = (Normal response, s') ->
  ok response = true ->
  json response = Normal data ->
  valid_body data = true ->
  exists (location : Location) (days : Daily) (body_daily : Json Num),
    execute params s
    = (Normal (Forecast location days (field data "daily_units")), s')
    /\ field data "daily" = Some body_daily
    /\ location_latitude location = field data "latitude"
    /\ location_longitude location = field data "longitude"
    /\ location_timezone location = field data "timezone"
    /\ location_elevation location = field data "elevation"
    /\ time days = field body_daily "time"
    /\ temperature_max days = field body_daily "temperature_2m_max"
    /\ temperature_min days = field body_daily "temperature_2m_min"
    /\ precipitation days = field body_daily "precipitation_sum"
    /\ windspeed days = field body_daily "windspeed_10m_max"
    /\ weathercode days = field body_daily "weathercode".
Proof.
  intros A K J V.
  pose proof (execute_valid _ _ _ _ _ A K J V) as X.
  unfold valid_body in V.
  destruct (field data "daily") as [body_daily|] eqn:D; [|discriminate V].
  do 2 eexists. exists body_daily.
  split; [exact X|]. repeat split.
Qed.

(** X15. When the service answers with a status that is not OK, the body
    is not looked at and the result is a failure whose [details] are
    "Failed to fetch weather data: " followed by the status text. Its
    [error] is the API error text, unless the status text itself holds
    "fetch failed": then the failure is reported as a network error. *)
Theorem http_error_is_reported params s response s' :
  answer params s = (Normal response, s') ->
  ok response = false ->
  exists error : jsstring,
    execute params s
    = (Normal (Failure error (js "Failed to fetch weather data: "
                                ++ statusText response)), s')
    /\ (error = NETWORK_ERROR \/ error = API_ERROR)
    /\ (error = NETWORK_ERROR
        <-> exists before after,
              statusText response = before ++ js "fetch failed" ++ after).
Proof.
  intros A K. eexists.
  split; [exact (execute_not_ok _ _ _ _ A K)|].
  rewrite <- includes_iff.
  destruct (includes (statusText response) (js "fetch failed")).
  - split; [now left|]. split; reflexivity.
  - split; [now right|]. split; discriminate.
Qed.

(** X16. The [error] text of a failure follows from its [details]: it is
    the network error exactly when the details hold "fetch failed", the
    API error when they do not, and "Unknown error occurred" only when
    [fetch] or [response.json()] threw something that is not an
    [Error]. *)
Theorem failure_text_follows_details params s error details s' :
  execute params s = (Normal (Failure error details), s') ->
  (error = NETWORK_ERROR /\ includes details (js "fetch failed") = true)
  \/ (error = API_ERROR /\ includes details (js "fetch failed") = false)
  \/ (error = js "Unknown error occurred"
      /\ (fst (answer params s) = Abrupt (ThrownOther details)
          \/ exists response : Response Num,
               fst (answer params s) = Normal response
               /\ json response = Abrupt (ThrownOther details))).
Proof.
  intros H.
  weather_cases params s; rewrite X in H.
  - discriminate H.
  - injection H as <- <- _. right. left. split; reflexivity.
  - injection H as <- <- _. right. left. split; reflexivity.
  - destruct e as [m|a].
    + destruct (includes m (js "fetch failed")) eqn:I;
        injection H as <- <- _; [left | right; left]; now split.
    + injection H as <- <- _. right. right. split; [reflexivity|].
      right. now exists response.
  - change (includes (js "Failed to fetch weather data: " ++ statusText response)
                     (js "fetch failed"))
      with (includes (statusText response) (js "fetch failed")).
    destruct (includes (statusText response) (js "fetch failed")) eqn:I;
      injection H as <- <- _; [left | right; left]; now split.
  - destruct e as [m|a].
    + destruct (includes m (js "fetch failed")) eqn:I;
        injection H as <- <- _; [left | right; left]; now split.
    + injection H as <- <- _. right. right. split; [reflexivity|]. now left.
Qed.

(** X17. An OK answer whose body parses to something other than [null] but
    is no forecast (no [daily], a [daily] that is falsy or not an object,
    or a [daily] without a truthy [time]) is a failure with the API error
    text and the details "Invalid response format from Open-Meteo
    API". *)
Theorem invalid_body_is_reported params s response data s' :
  answer params s = (Normal response, s') ->
  ok response = true ->
  json response = Normal data ->
  data <> JNull ->
  valid_body data = false ->
  execute params s
  = (Normal (Failure API_ERROR
               (js "Invalid response format from Open-Meteo API")), s').
Proof.
  intros A K J N V. exact (execute_invalid _ _ _ _ _ A K J N V).
Qed.

End Properties.

End WeatherFacts.

(** ** The weather tool at work *)

Module WeatherRuns.
Import Weather WeatherStrings WeatherFacts.

#[local] Existing Instance integers.
#[local] Existing Instance canned.

(** The request for Tokyo, written out: the comma that joins the
    variables and the [&] and [=] inside the second one are escaped. *)
Example tokyo_request :
  requested (snd (@execute Z integers _ canned tokyo (first_call good_reply)))
  = [js "https://api.open-meteo.com/v1/forecast?latitude=36&longitude=140&forecast_days=3&timezone=auto&daily=temperature_2m_max%2Crain%26latitude%3D0"].
Proof. vm_compute. reflexivity. Qed.

Lemma tokyo_parameters_witness :
  exists query : jsstring,
    requested (snd (@execute Z integers _ canned tokyo (first_call unreachable)))
    = [js "https://api.open-meteo.com/v1/forecast" ++ js "?" ++ query]
    /\ query_names query
       = [js "latitude"; js "longitude"; js "forecast_days"; js "timezone";
          js "daily"].
Proof.
  exact (@one_request_with_fixed_parameters Z integers _ canned tokyo
           (first_call unreachable)).
Defined.

Lemma forecast_witness :
  exists (response : Response Z) (data : Json Z),
    @answer Z integers _ canned tokyo (first_call good_reply)
    = (Normal response,
       snd (@execute Z integers _ canned tokyo (first_call good_reply)))
    /\ ok response = true
    /\ json response = Normal data
    /\ valid_body data = true.
Proof.
  refine (proj1 (@forecast_iff_valid_body Z integers _ canned tokyo
                   (first_call good_reply) _ _ _) _);
    reflexivity.
Defined.

Lemma forecast_fields_witness :
  exists (location : Location) (days : Daily),
    fst (@execute Z integers _ canned tokyo (first_call good_reply))
    = Normal (Forecast location days None)
    /\ location_latitude location = Some (JNumber 36)
    /\ location_elevation location = None
    /\ temperature_max days = Some (JArray [JNumber 9])
    /\ precipitation days = None.
Proof.
  edestruct (@forecast_copies_the_body Z integers _ canned tokyo
               (first_call good_reply))
    as (location & days & body & X & D & La & _ & _ & El & _ & Tm & _ & Pr & _);
    [reflexivity | reflexivity | reflexivity | reflexivity |].
  injection D as <-.
  exists location, days. rewrite X. repeat split; assumption.
Defined.

Lemma bad_request_witness :
  exists error : jsstring,
    fst (@execute Z integers _ canned tokyo (first_call bad_request))
    = Normal (Failure error (js "Failed to fetch weather data: Bad Request"))
    /\ (error = NETWORK_ERROR \/ error = API_ERROR).
Proof.
  edestruct (@http_error_is_reported Z integers _ canned tokyo
               (first_call bad_request))
    as [error [X [T _]]];
    [reflexivity | reflexivity |].
  exists error. rewrite X. split; [reflexivity | exact T].
Defined.

Lemma unreachable_witness :
  (NETWORK_ERROR = NETWORK_ERROR
   /\ includes (js "fetch failed") (js "fetch failed") = true)
  \/ (NETWORK_ERROR = API_ERROR
      /\ includes (js "fetch failed") (js "fetch failed") = false)
  \/ (NETWORK_ERROR = js "Unknown error occurred"
      /\ (fst (@answer Z integers _ canned tokyo (first_call unreachable))
          = Abrupt (ThrownOther (js "fetch failed"))
          \/ exists response : Response Z,
               fst (@answer Z integers _ canned tokyo (first_call unreachable))
               = Normal response
               /\ json response = Abrupt (ThrownOther (js "fetch failed")))).
Proof.
  apply (@failure_text_follows_details Z integers _ canned tokyo
           (first_call unreachable) NETWORK_ERROR (js "fetch failed")
           {| world := unreachable; requested := [request_url tokyo] |}).
  reflexivity.
Defined.

Lemma odd_reply_witness :
  @execute Z integers _ canned tokyo (first_call odd_reply)
  = (Normal (Failure API_ERROR
               (js "Invalid response format from Open-Meteo API")),
     {| world := odd_reply; requested := [request_url tokyo] |}).
Proof.
  eapply (@invalid_body_is_reported Z integers _ canned tokyo
            (first_call odd_reply));
    [reflexivity | reflexivity | reflexivity | discriminate | reflexivity].
Defined.

End WeatherRuns.
